(** * QDBMP: a shallow embedding of the BMP reading filter (qdbmp.c)

    The development follows the source file top to bottom: the C integer
    types, a model of the stdio memory stream the filter reads from, the
    little-endian field readers [ReadUINT] and [ReadUSHORT], the header
    reader [ReadHeader], and the filter's [QDBMP_process] callback with
    the effects it has on the output pid, on the packets and on the global
    [BMP_LAST_ERROR_CODE]. The statements of the specification that are
    checked against these definitions come last. *)

From Stdlib.Strings Require Import Byte String.
From Stdlib Require Import ZArith List Lia Bool PeanoNat.
Import ListNotations.

Local Open Scope Z_scope.

(** ** C integer types *)

(** Modelled from the spec: the declarations of [UCHAR], [USHORT] and [UINT]
    are in qdbmp.h, which is not among the sources. The file layout gives
    the header's fields 2 and 4 bytes, and the readers below say "BMPs use
    16 bit shorts" and "BMPs use 32 bit ints": [UCHAR] is a byte, [USHORT]
    is 16 bits wide and [UINT] 32 bits, as is GPAC's [u32]. Values are kept
    in [Z] and the wrap-around of each conversion is written out. *)
Definition UCHAR := byte.
Definition USHORT := Z.
Definition UINT := Z.
Definition u32 := Z.

Definition to_USHORT (z : Z) : USHORT := z mod 2 ^ 16.
Definition to_UINT (z : Z) : UINT := z mod 2 ^ 32.
Definition to_u32 (z : Z) : u32 := z mod 2 ^ 32.

(** A [UCHAR] promoted to [int] in an expression. *)
Definition uchar (b : UCHAR) : Z := Z.of_N (Byte.to_N b).

(** ** The memory stream

    [fmemopen (data, size, "rb")] gives a read-only stream over the packet's
    bytes; the stream is its buffer and its read cursor. *)

Module Stdio.

Record FILE : Type := mkFILE { buf : list UCHAR; pos : nat }.

Definition fmemopen (data : list UCHAR) : FILE := mkFILE data 0.

(** Bytes between the cursor and the end of the buffer. *)
Definition remaining (f : FILE) : list UCHAR := skipn (pos f) (buf f).

(** [fread (ptr, size, nmemb, f)]: transfers as many of the [size * nmemb]
    requested bytes as the stream still holds, moves the cursor past them
    and returns the number of complete items. The result is the bytes
    stored at [ptr], the item count and the stream afterwards. *)
Definition fread (size nmemb : nat) (f : FILE) : list UCHAR * nat * FILE :=
  let got := firstn (size * nmemb) (remaining f) in
  (got, (length got / size)%nat, mkFILE (buf f) (pos f + length got)).

(** The stream with its cursor [n] bytes further. *)
Definition advance (n : nat) (f : FILE) : FILE := mkFILE (buf f) (pos f + n).

End Stdio.
Import Stdio.

(** ** Reading: a state-and-failure monad over the stream

    The readers return non-zero on success and store the value through a
    pointer; here they return the value, or [None] where the C function
    returns 0. The stream is threaded through either way, as a failed
    [fread] may still have moved the cursor. *)

Definition reader (A : Type) : Type := FILE -> option A * FILE.

Definition rret {A : Type} (a : A) : reader A := fun f => (Some a, f).

Definition rbind {A B : Type} (m : reader A) (k : A -> reader B) : reader B :=
  fun f =>
    match m f with
    | (Some a, f') => k a f'
    | (None, f') => (None, f')
    end.

Notation "x <- m ;; k" := (rbind m (fun x => k))
  (at level 61, m at next level, right associativity).

(** [little[i]] of the local array filled by [fread]. *)
Definition idx (little : list UCHAR) (i : nat) : Z := uchar (nth i little x00).

(** [ReadUINT]: reads a little-endian unsigned int from the file.
    [*x = ( little[3] << 24 | little[2] << 16 | little[1] << 8 | little[0] )].
    The NULL guard cannot fire here: [ReadHeader] has checked [f] and [x]
    is the address of a header field. The shifts are taken on the bytes'
    unsigned values and the result is converted to [UINT]. *)
Definition ReadUINT : reader UINT := fun f =>
  let '(little, n, f') := fread 4 1 f in
  if negb (n =? 1)%nat then (None, f')
  else
    (Some (to_UINT
             (Z.lor (Z.lor (Z.lor (Z.shiftl (idx little 3) 24)
                                  (Z.shiftl (idx little 2) 16))
                           (Z.shiftl (idx little 1) 8))
                    (idx little 0))),
     f').

(** [ReadUSHORT]: reads a little-endian unsigned short int from the file.
    [*x = ( little[1] << 8 | little[0] )]. *)
Definition ReadUSHORT : reader USHORT := fun f =>
  let '(little, n, f') := fread 2 1 f in
  if negb (n =? 1)%nat then (None, f')
  else
    (Some (to_USHORT (Z.lor (Z.shiftl (idx little 1) 8) (idx little 0))), f').

(** ** The header *)

(** The status codes of qdbmp.h that this file names. *)
Inductive BMP_STATUS : Type :=
| BMP_OK
| BMP_OUT_OF_MEMORY
| BMP_IO_ERROR
| BMP_FILE_NOT_SUPPORTED
| BMP_FILE_INVALID
| BMP_INVALID_ARGUMENT.

(** [bmp->Header], with the fields in the order [ReadHeader] fills them. *)
Record BMP_Header : Type := mkHeader {
  Magic : USHORT;
  FileSize : UINT;
  Reserved1 : USHORT;
  Reserved2 : USHORT;
  DataOffset : UINT;
  HeaderSize : UINT;
  Width : UINT;
  Height : UINT;
  Planes : USHORT;
  BitsPerPixel : USHORT;
  CompressionType : UINT;
  ImageDataSize : UINT;
  HPixelsPerMeter : UINT;
  VPixelsPerMeter : UINT;
  ColorsUsed : UINT;
  ColorsRequired : UINT
}.

(** The sixteen reads of [ReadHeader], one field after the other; the first
    one that fails ends the chain. *)
Definition header_fields : reader BMP_Header :=
  magic <- ReadUSHORT ;;
  fileSize <- ReadUINT ;;
  reserved1 <- ReadUSHORT ;;
  reserved2 <- ReadUSHORT ;;
  dataOffset <- ReadUINT ;;
  headerSize <- ReadUINT ;;
  width <- ReadUINT ;;
  height <- ReadUINT ;;
  planes <- ReadUSHORT ;;
  bitsPerPixel <- ReadUSHORT ;;
  compressionType <- ReadUINT ;;
  imageDataSize <- ReadUINT ;;
  hPixelsPerMeter <- ReadUINT ;;
  vPixelsPerMeter <- ReadUINT ;;
  colorsUsed <- ReadUINT ;;
  colorsRequired <- ReadUINT ;;
  rret (mkHeader magic fileSize reserved1 reserved2 dataOffset headerSize
                 width height planes bitsPerPixel compressionType
                 imageDataSize hPixelsPerMeter vPixelsPerMeter colorsUsed
                 colorsRequired).

(** [ReadHeader]: reads the BMP file's header into the data structure and
    returns [BMP_OK] on success. A NULL stream is [None]. On
    [BMP_IO_ERROR] the fields read so far stay in [*bmp], which no caller
    looks at; the model returns the header only with [BMP_OK]. *)
Definition ReadHeader (f : option FILE) : BMP_STATUS * option (BMP_Header * FILE) :=
  match f with
  | None => (BMP_INVALID_ARGUMENT, None)
  | Some f =>
      match header_fields f with
      | (Some h, f') => (BMP_OK, Some (h, f'))
      | (None, _) => (BMP_IO_ERROR, None)
      end
  end.

(** ** The filter's process callback *)

Inductive GF_Err : Type :=
| GF_OK
| GF_EOS
| GF_OUT_OF_MEM
| GF_CORRUPTED_DATA
| GF_NOT_SUPPORTED.

Inductive GF_PixelFormat : Type :=
| GF_PIXEL_RGB
| GF_PIXEL_RGBX.

(** A property set on the output pid by [gf_filter_pid_set_property]. *)
Inductive pid_property : Type :=
| GF_PROP_PID_PIXFMT (fmt : GF_PixelFormat)
| GF_PROP_PID_WIDTH (v : u32)
| GF_PROP_PID_HEIGHT (v : u32)
| GF_PROP_PID_STRIDE (v : u32).

(** One byte of a buffer obtained from [gf_filter_pck_new_alloc]: [None]
    until something is stored in it. *)
Definition cell := option UCHAR.

Definition gf_filter_pck_new_alloc (data_size : u32) : list cell :=
  repeat None (Z.to_nat data_size).

(** The bytes an [fread] delivers are stored from the start of [output]. *)
Definition store (bytes : list UCHAR) (output : list cell) : list cell :=
  map Some bytes ++ skipn (length bytes) output.

(** What one call of [QDBMP_process] leaves behind. *)
Record outcome : Type := mkOutcome {
  ret : GF_Err;                     (* the value returned *)
  last_error : BMP_STATUS;          (* BMP_LAST_ERROR_CODE after the call *)
  props : list pid_property;        (* properties set on opid, in order *)
  alloc : option u32;               (* size given to gf_filter_pck_new_alloc *)
  palette : option (list UCHAR);    (* what was read into bmp->Palette *)
  sent : option (list cell);        (* the packet given to gf_filter_pck_send *)
  stream : option FILE;             (* the stream as the call leaves it,
                                       if a header was read from it *)
  dropped : bool;                   (* gf_filter_pid_drop_packet on ipid *)
  eos_set : bool                    (* gf_filter_pid_set_eos on opid *)
}.

(** Size of the palette data for 8 BPP bitmaps *)
Definition BMP_PALETTE_SIZE_8bpp : Z := 256 * 4.

(** Size of the palette data for 4 BPP bitmaps *)
Definition BMP_PALETTE_SIZE_4bpp : Z := 16 * 4.

(** Modelled from the spec: [BMP_GetWidth] is declared in qdbmp.h and
    defined outside this file; the output contract gives the decoded image
    the header's width, so it is the accessor of [Header.Width]. *)
Definition BMP_GetWidth (h : BMP_Header) : UINT := Width h.

(** Modelled from the spec: [BMP_GetHeight] is declared in qdbmp.h and
    defined outside this file; the accessor of [Header.Height]. *)
Definition BMP_GetHeight (h : BMP_Header) : UINT := Height h.

(** Modelled from the spec: [BMP_GetDepth] is declared in qdbmp.h and
    defined outside this file; the accessor of [Header.BitsPerPixel]. *)
Definition BMP_GetDepth (h : BMP_Header) : USHORT := BitsPerPixel h.

(** The local [u32 palettesize] is declared without an initial value and
    assigned only for the two indexed depths; [palettesize0] is whatever
    its storage holds on entry.
    [if ( BitsPerPixel == 8 ) palettesize = BMP_PALETTE_SIZE_8bpp;]
    [if ( BitsPerPixel == 4 ) palettesize = BMP_PALETTE_SIZE_4bpp;] *)
Definition palettesize_of (h : BMP_Header) (palettesize0 : u32) : u32 :=
  let palettesize :=
    if BitsPerPixel h =? 8 then BMP_PALETTE_SIZE_8bpp else palettesize0 in
  if BitsPerPixel h =? 4 then BMP_PALETTE_SIZE_4bpp else palettesize.

(** "Verify that the bitmap variant is supported": the condition under
    which the call gives up with [GF_NOT_SUPPORTED]. *)
Definition variant_unsupported (h : BMP_Header) : bool :=
  (negb (BitsPerPixel h =? 32) && negb (BitsPerPixel h =? 24)
   && negb (BitsPerPixel h =? 8) && negb (BitsPerPixel h =? 4))
  || negb (CompressionType h =? 0) || negb (HeaderSize h =? 40).

(** An early [return]: nothing allocated, nothing sent. *)
Definition stop (e : GF_Err) (g : BMP_STATUS) (f : option FILE) : outcome :=
  mkOutcome e g [] None None None f false false.

(** The size of the output packet:
    [BMP_GetWidth(bmp)*BMP_GetHeight(bmp)*4] as a [u32] argument. *)
Definition packet_size (h : BMP_Header) : u32 :=
  to_u32 (BMP_GetWidth h * BMP_GetHeight h * 4).

(** From [gf_filter_pck_new_alloc] to the end of the function: the output
    packet, the switch on the depth, the pid properties and the send. The
    32-bit case reads the pixel bytes straight into [output] and does not
    look at what [fread] returns. Both [case 24] and [case 8] return before
    anything else happens, leaving the stream open and the packet unsent;
    no other depth has a case. *)
Definition decode_pixels (h : BMP_Header) (pal : option (list UCHAR))
    (f : FILE) (g : BMP_STATUS) : outcome :=
  let size := packet_size h in
  let output := gf_filter_pck_new_alloc size in
  let finish (before : list pid_property) (output : list cell) (f : FILE) :=
    mkOutcome GF_OK g
      (before ++ [GF_PROP_PID_WIDTH (to_u32 (BMP_GetWidth h));
                  GF_PROP_PID_HEIGHT (to_u32 (BMP_GetHeight h));
                  GF_PROP_PID_STRIDE (to_u32 (4 * BMP_GetWidth h))])
      (Some size) pal (Some output) (Some f) true false in
  if BMP_GetDepth h =? 32 then
    let '(bytes, _, f') := fread 1 (Z.to_nat size) f in
    finish [GF_PROP_PID_PIXFMT GF_PIXEL_RGBX] (store bytes output) f'
  else if BMP_GetDepth h =? 24 then
    mkOutcome GF_NOT_SUPPORTED g [] (Some size) pal None (Some f) false false
  else if BMP_GetDepth h =? 8 then
    mkOutcome GF_NOT_SUPPORTED g [] (Some size) pal None (Some f) false false
  else
    finish [] output f.

(** "Allocate and read palette": with a positive [palettesize] that many
    bytes must come out of the stream, else the call fails; otherwise the
    image is not indexed and [bmp->Palette] is NULL. *)
Definition read_palette (h : BMP_Header) (palettesize : u32) (f : FILE)
    (g : BMP_STATUS) : outcome :=
  if palettesize >? 0 then
    let '(pal, n, f') := fread 1 (Z.to_nat palettesize) f in
    if negb (n =? Z.to_nat palettesize)%nat then
      stop GF_CORRUPTED_DATA BMP_FILE_INVALID (Some f')
    else decode_pixels h (Some pal) f' g
  else decode_pixels h None f g.

(** [QDBMP_process]: [pck] is the packet waiting on the input pid, if any,
    and [is_eos] what [gf_filter_pid_is_eos] answers; [palettesize0] is the
    initial content of the local [palettesize] and [g] the value of the
    global [BMP_LAST_ERROR_CODE] on entry. The output pid exists, as
    [QDBMP_configure_pid] creates it; allocation failures of [gf_malloc],
    [malloc], [fmemopen] and [gf_filter_pck_new_alloc] are not modelled. *)
Definition QDBMP_process (pck : option (list UCHAR)) (is_eos : bool)
    (palettesize0 : u32) (g : BMP_STATUS) : outcome :=
  match pck with
  | None =>
      if is_eos then mkOutcome GF_EOS g [] None None None None false true
      else stop GF_OK g None
  | Some data =>
      let f := fmemopen data in
      match ReadHeader (Some f) with
      | (BMP_OK, Some (h, f1)) =>
          if negb (Magic h =? 0x4D42) then
            stop GF_CORRUPTED_DATA BMP_FILE_INVALID (Some f1)
          else
            let palettesize := palettesize_of h palettesize0 in
            if variant_unsupported h then
              stop GF_NOT_SUPPORTED BMP_FILE_NOT_SUPPORTED (Some f1)
            else read_palette h palettesize f1 g
      | _ => stop GF_CORRUPTED_DATA BMP_FILE_INVALID None
      end
  end.

(** The header checks of [QDBMP_process] on their own: the error the call
    returns and the code it leaves in [BMP_LAST_ERROR_CODE], or [None] when
    the header passes. *)
Definition validate (h : BMP_Header) : option (GF_Err * BMP_STATUS) :=
  if negb (Magic h =? 0x4D42) then Some (GF_CORRUPTED_DATA, BMP_FILE_INVALID)
  else if variant_unsupported h then Some (GF_NOT_SUPPORTED, BMP_FILE_NOT_SUPPORTED)
  else None.

(** "Allocate and read palette" with the allocation in it: [malloc_ok]
    tells whether [malloc (palettesize)] returns memory. When it does not,
    the call sets [BMP_LAST_ERROR_CODE] to [BMP_OUT_OF_MEMORY], closes the
    stream and returns [GF_OUT_OF_MEM]; [read_palette] above is the case in
    which it does. *)
Definition read_palette_alloc (malloc_ok : bool) (h : BMP_Header)
    (palettesize : u32) (f : FILE) (g : BMP_STATUS) : outcome :=
  if palettesize >? 0 then
    if negb malloc_ok then
      stop GF_OUT_OF_MEM BMP_OUT_OF_MEMORY (Some f)
    else
      let '(pal, n, f') := fread 1 (Z.to_nat palettesize) f in
      if negb (n =? Z.to_nat palettesize)%nat then
        stop GF_CORRUPTED_DATA BMP_FILE_INVALID (Some f')
      else decode_pixels h (Some pal) f' g
  else decode_pixels h None f g.

(** [QDBMP_process] with the two allocations whose failure the code tests:
    [gf_malloc_ok] tells whether [gf_malloc (sizeof (BMP))] returns memory
    (if not, the call returns [GF_OUT_OF_MEM] at once, before the stream is
    opened) and [malloc_ok] whether the palette's [malloc] does. *)
Definition QDBMP_process_alloc (gf_malloc_ok malloc_ok : bool)
    (pck : option (list UCHAR)) (is_eos : bool)
    (palettesize0 : u32) (g : BMP_STATUS) : outcome :=
  match pck with
  | None =>
      if is_eos then mkOutcome GF_EOS g [] None None None None false true
      else stop GF_OK g None
  | Some data =>
      if negb gf_malloc_ok then stop GF_OUT_OF_MEM g None
      else
        let f := fmemopen data in
        match ReadHeader (Some f) with
        | (BMP_OK, Some (h, f1)) =>
            if negb (Magic h =? 0x4D42) then
              stop GF_CORRUPTED_DATA BMP_FILE_INVALID (Some f1)
            else
              let palettesize := palettesize_of h palettesize0 in
              if variant_unsupported h then
                stop GF_NOT_SUPPORTED BMP_FILE_NOT_SUPPORTED (Some f1)
              else read_palette_alloc malloc_ok h palettesize f1 g
        | _ => stop GF_CORRUPTED_DATA BMP_FILE_INVALID None
        end
  end.


(** Conversion to a 32-bit [int]. *)
Definition to_int (z : Z) : Z := (z + 2 ^ 31) mod 2 ^ 32 - 2 ^ 31.

(** The block of [case 24] that follows the [return] and is never run.
    [int stride = Width;]
    [if (Width % 4 != 0) stride = Width + (4 - (Width % 4));]
    [int diff = FileSize - (stride * Height * 3) - palettesize;]
    [if (diff > 4 || diff < 0) return GF_CORRUPTED_DATA;] *)
Definition case24_stride (h : BMP_Header) : Z :=
  let stride := to_int (Width h) in
  if negb (Width h mod 4 =? 0) then
    to_int (to_UINT (Width h + (4 - Width h mod 4)))
  else stride.

Definition case24_diff (h : BMP_Header) (palettesize : u32) : Z :=
  to_int (to_UINT (FileSize h
                   - to_UINT (to_UINT (case24_stride h) * Height h * 3)
                   - palettesize)).

Definition case24_check (h : BMP_Header) (palettesize : u32) : option GF_Err :=
  let diff := case24_diff h palettesize in
  if (diff >? 4) || (diff <? 0) then Some GF_CORRUPTED_DATA else None.

(** ** Writing little-endian fields

    [WriteUINT] and [WriteUSHORT] append to the file; the stream written to
    is the list of bytes so far. *)

Definition to_UCHAR (z : Z) : UCHAR :=
  match Byte.of_N (Z.to_N (z mod 2 ^ 8)) with
  | Some b => b
  | None => x00
  end.

(** [WriteUINT]: writes a little-endian unsigned int to the file. The
    result is the file afterwards; the write itself does not fail here. *)
Definition WriteUINT (x : UINT) (f : list UCHAR) : list UCHAR :=
  let little3 := to_UCHAR (Z.shiftr (Z.land x 0xff000000) 24) in
  let little2 := to_UCHAR (Z.shiftr (Z.land x 0x00ff0000) 16) in
  let little1 := to_UCHAR (Z.shiftr (Z.land x 0x0000ff00) 8) in
  let little0 := to_UCHAR (Z.shiftr (Z.land x 0x000000ff) 0) in
  f ++ [little0; little1; little2; little3].

(** [WriteUSHORT]: writes a little-endian unsigned short int to the file. *)
Definition WriteUSHORT (x : USHORT) (f : list UCHAR) : list UCHAR :=
  let little1 := to_UCHAR (Z.shiftr (Z.land x 0xff00) 8) in
  let little0 := to_UCHAR (Z.shiftr (Z.land x 0x00ff) 0) in
  f ++ [little0; little1].

(** ** The specification's side *)

Module Spec.

(** The value of a byte string read as a little-endian integer. *)
Fixpoint le_value (bs : list UCHAR) : Z :=
  match bs with
  | [] => 0
  | b :: bs' => uchar b + 256 * le_value bs'
  end.

(** The field of [len] bytes at byte offset [off]. *)
Definition field (data : list UCHAR) (off len : nat) : Z :=
  le_value (firstn len (skipn off data)).

(** The file layout: offset 0 magic(2), 2 file size(4), 6 reserved(2) +
    reserved(2), 10 pixel-data offset(4), 14 info-header size(4),
    18 width(4), 22 height(4), 26 planes(2), 28 bits-per-pixel(2),
    30 compression(4), 34 image-data-size(4), 38 h-res(4), 42 v-res(4),
    46 colors-used(4), 50 colors-required(4). *)
Definition header_at (data : list UCHAR) : BMP_Header :=
  mkHeader (field data 0 2) (field data 2 4) (field data 6 2)
           (field data 8 2) (field data 10 4) (field data 14 4)
           (field data 18 4) (field data 22 4) (field data 26 2)
           (field data 28 2) (field data 30 4) (field data 34 4)
           (field data 38 4) (field data 42 4) (field data 46 4)
           (field data 50 4).

(** Source row stride: [ceil (width * bitsPerPixel / 8)] rounded up to
    the next multiple of 4 bytes. *)
Definition row_stride (width bpp : Z) : Z :=
  ((width * bpp + 7) / 8 + 3) / 4 * 4.

(** One source pixel blue-green-red-alpha, emitted red-green-blue-alpha. *)
Definition rgba_of_bgra (px : list UCHAR) : list UCHAR :=
  match px with
  | [b; g; r; a] => [r; g; b; a]
  | _ => px
  end.

(** The rows of [w] pixels of 4 bytes each that [bytes] holds. *)
Fixpoint rows (w : nat) (n : nat) (bytes : list UCHAR) : list (list UCHAR) :=
  match n with
  | O => []
  | S n' => firstn (4 * w) bytes :: rows w n' (skipn (4 * w) bytes)
  end.

(** Output row [y] is source row [height - 1 - y]. *)
Definition flip (w h : nat) (bytes : list UCHAR) : list UCHAR :=
  concat (rev (rows w h bytes)).

End Spec.

(** ** Sample files *)

(** A 54-byte header written field by field. *)
Definition sample_header (h : BMP_Header) : list UCHAR :=
  WriteUINT (ColorsRequired h) (WriteUINT (ColorsUsed h)
  (WriteUINT (VPixelsPerMeter h) (WriteUINT (HPixelsPerMeter h)
  (WriteUINT (ImageDataSize h) (WriteUINT (CompressionType h)
  (WriteUSHORT (BitsPerPixel h) (WriteUSHORT (Planes h)
  (WriteUINT (Height h) (WriteUINT (Width h)
  (WriteUINT (HeaderSize h) (WriteUINT (DataOffset h)
  (WriteUSHORT (Reserved2 h) (WriteUSHORT (Reserved1 h)
  (WriteUINT (FileSize h) (WriteUSHORT (Magic h) []))))))))))))))).

(** A Windows V3 header, uncompressed, for a [w] x [h] image of depth [bpp]. *)
Definition v3_header (w h bpp : Z) : BMP_Header :=
  mkHeader 0x4D42 0 0 0 54 40 w h 1 bpp 0 0 0 0 0 0.

Definition bytes_of (l : list Z) : list UCHAR := map to_UCHAR l.

(** One 32-bit pixel: blue 0x11, green 0x22, red 0x33, alpha 0x44. *)
Definition bgra_pixel : list UCHAR := bytes_of [0x11; 0x22; 0x33; 0x44].

(** A 1 x 1 image of depth 32 holding [bgra_pixel]. *)
Definition bmp_1x1_32 : list UCHAR :=
  sample_header (v3_header 1 1 32) ++ bgra_pixel.

(** Two rows of two grey pixels each; the file stores the darker row first. *)
Definition rows_2x2 : list UCHAR :=
  bytes_of [1; 1; 1; 255; 1; 1; 1; 255; 2; 2; 2; 255; 2; 2; 2; 255].

Definition bmp_2x2_32 : list UCHAR :=
  sample_header (v3_header 2 2 32) ++ rows_2x2.

(** The same header with one pixel where four are due. *)
Definition bmp_2x2_32_truncated : list UCHAR :=
  sample_header (v3_header 2 2 32) ++ bytes_of [1; 2; 3; 4].

(** A 4-bpp header with nothing behind it, and one followed by the sixteen
    palette entries and a row of pixels. *)
Definition bmp_4bpp_header_only : list UCHAR :=
  sample_header (v3_header 1 1 4).

Definition bmp_4bpp : list UCHAR :=
  sample_header (v3_header 1 1 4) ++ repeat xff 64 ++ bytes_of [0x10; 0; 0; 0].

(** A row of five 24-bit pixels: fifteen bytes and one byte of padding. *)
Definition bmp_5x1_24 : list UCHAR :=
  sample_header (v3_header 5 1 24) ++ repeat x7f 16.

(** A header whose width times height times four is 2 ^ 32. *)
Definition bmp_huge : list UCHAR :=
  sample_header (v3_header 0x40000000 1 32).


(** ** The rest of the filter: probe, pid configuration, events *)

(** [QDBMP_probe_data]: the packet is taken for a BMP when it has at least
    54 bytes and starts with 'B' 'M'; the score is then
    [GF_FPROBE_SUPPORTED] and the result the mime type, else NULL. [size]
    is the length of [data]; the bytes are looked at only when the size
    test has passed. *)
Inductive GF_FilterProbeScore : Type :=
| GF_FPROBE_SUPPORTED.

Definition QDBMP_probe_data (data : list UCHAR)
  : option (string * GF_FilterProbeScore) :=
  if (54 <=? length data)%nat
     && Byte.eqb (nth 0 data x00) x42
     && Byte.eqb (nth 1 data x00) x4d
  then Some ("image/bmp"%string, GF_FPROBE_SUPPORTED)
  else None.

(** A pid is known by its handle; NULL is [None]. *)
Definition GF_FilterPid := nat.

(** [GF_QDBMPCtx], the filter's private state. *)
Record GF_QDBMPCtx : Type := mkCtx {
  ipid : option GF_FilterPid;
  opid : option GF_FilterPid;
  is_playing : bool;
  initial_play_done : bool
}.

Definition pid_eqb (a b : option GF_FilterPid) : bool :=
  match a, b with
  | Some x, Some y => (x =? y)%nat
  | None, None => true
  | _, _ => false
  end.

(** What [QDBMP_configure_pid] asks of the filter session, in order. *)
Inductive pid_action : Type :=
| gf_filter_pid_remove (p : GF_FilterPid)
| gf_filter_pid_new (p : GF_FilterPid)
| gf_filter_pid_set_framing_mode (p : GF_FilterPid)
| gf_filter_pid_copy_properties (dst : option GF_FilterPid) (src : option GF_FilterPid)
| set_codecid_raw (p : option GF_FilterPid)
| set_stream_type_visual (p : option GF_FilterPid)
| set_pixfmt (p : option GF_FilterPid) (fmt : GF_PixelFormat)
| gf_filter_set_name (name : string).

(** [QDBMP_configure_pid]: [check_caps] is the answer of
    [gf_filter_pid_check_caps (pid)] and [fresh] the pid that
    [gf_filter_pid_new] hands out if it is called. *)
Definition QDBMP_configure_pid (ctx : GF_QDBMPCtx) (pid : GF_FilterPid)
    (is_remove : bool) (check_caps : bool) (fresh : GF_FilterPid)
  : GF_Err * GF_QDBMPCtx * list pid_action :=
  if is_remove then
    match opid ctx with
    | Some o =>
        (GF_OK, mkCtx None None (is_playing ctx) (initial_play_done ctx),
         [gf_filter_pid_remove o])
    | None =>
        (GF_OK, mkCtx None None (is_playing ctx) (initial_play_done ctx), [])
    end
  else if negb check_caps then (GF_NOT_SUPPORTED, ctx, [])
  else
    let '(o, created) :=
      match opid ctx with
      | Some o => (o, [])
      | None => (fresh, [gf_filter_pid_new fresh])
      end in
    (GF_OK,
     mkCtx (Some pid) (Some o) (is_playing ctx) (initial_play_done ctx),
     created ++
     [gf_filter_pid_set_framing_mode pid;
      gf_filter_pid_copy_properties (Some o) (Some pid);
      set_codecid_raw (Some o);
      set_stream_type_visual (Some o);
      set_pixfmt (Some o) GF_PIXEL_RGB;
      gf_filter_set_name "QDBMP"%string]).

(** The events told apart by [QDBMP_process_event]. *)
Inductive GF_FEventType : Type :=
| GF_FEVT_PLAY
| GF_FEVT_STOP
| GF_FEVT_OTHER.

Record GF_FilterEvent : Type := mkEvent {
  on_pid : option GF_FilterPid;
  evt_type : GF_FEventType
}.

(** The [GF_FEVT_SOURCE_SEEK] event sent up the input pid. *)
Record source_seek : Type := mkSeek {
  seek_pid : option GF_FilterPid;
  start_offset : Z
}.

(** [QDBMP_process_event]: the result is [GF_TRUE] when the event is
    cancelled; with it come the context afterwards and the seek events
    sent. *)
Definition QDBMP_process_event (ctx : GF_QDBMPCtx) (evt : GF_FilterEvent)
  : bool * GF_QDBMPCtx * list source_seek :=
  if negb (pid_eqb (on_pid evt) (opid ctx)) then (true, ctx, [])
  else
    match evt_type evt with
    | GF_FEVT_PLAY =>
        if is_playing ctx then (true, ctx, [])
        else if negb (initial_play_done ctx) then
          (true, mkCtx (ipid ctx) (opid ctx) true true, [])
        else
          (true, mkCtx (ipid ctx) (opid ctx) true (initial_play_done ctx),
           [mkSeek (ipid ctx) 0])
    | GF_FEVT_STOP =>
        (false, mkCtx (ipid ctx) (opid ctx) false (initial_play_done ctx), [])
    | GF_FEVT_OTHER => (true, ctx, [])
    end.

(** A run of events through [QDBMP_process_event]: the context at the end
    and every seek sent on the way. *)
Fixpoint process_events (ctx : GF_QDBMPCtx) (evts : list GF_FilterEvent)
  : GF_QDBMPCtx * list source_seek :=
  match evts with
  | [] => (ctx, [])
  | e :: evts' =>
      let '(_, ctx', seeks) := QDBMP_process_event ctx e in
      let '(ctx'', seeks') := process_events ctx' evts' in
      (ctx'', seeks ++ seeks')
  end.

(** A 1 x 1 image of depth 8 with its 256 palette entries. *)
Definition bmp_8bpp : list UCHAR :=
  sample_header (v3_header 1 1 8) ++ repeat xff 1024 ++ bytes_of [0; 0; 0; 0].

(** The STOP events of a run are those [is_stop] keeps. *)
Definition is_stop (e : GF_FilterEvent) : bool :=
  match evt_type e with GF_FEVT_STOP => true | _ => false end.

(** One seek is due when the filter has played before and is stopped. *)
Definition seek_due (ctx : GF_QDBMPCtx) : nat :=
  if initial_play_done ctx && negb (is_playing ctx) then 1%nat else 0%nat.

(** A header with each field reduced to the width it is written with. *)
Definition written_header (h : BMP_Header) : BMP_Header :=
  mkHeader (Magic h mod 2 ^ 16) (FileSize h mod 2 ^ 32)
           (Reserved1 h mod 2 ^ 16) (Reserved2 h mod 2 ^ 16)
           (DataOffset h mod 2 ^ 32) (HeaderSize h mod 2 ^ 32)
           (Width h mod 2 ^ 32) (Height h mod 2 ^ 32)
           (Planes h mod 2 ^ 16) (BitsPerPixel h mod 2 ^ 16)
           (CompressionType h mod 2 ^ 32) (ImageDataSize h mod 2 ^ 32)
           (HPixelsPerMeter h mod 2 ^ 32) (VPixelsPerMeter h mod 2 ^ 32)
           (ColorsUsed h mod 2 ^ 32) (ColorsRequired h mod 2 ^ 32).

(** What a call returns, sets, reads and sends, leaving the stream aside. *)
Definition delivered (o : outcome) :=
  (ret o, last_error o, props o, alloc o, palette o, sent o, dropped o).

(** [bmp_1x1_32] again, with other values in the header fields that
    [QDBMP_process] does not read. *)
Definition bmp_1x1_32_other_fields : list UCHAR :=
  sample_header (mkHeader 0x4D42 58 7 9 1000 40 1 1 3 32 0 4 10 20 30 40)
  ++ bgra_pixel.

(** * Properties *)

(** ** Bytes and little-endian assembly *)

Section LittleEndian.

Lemma uchar_range (b : UCHAR) : 0 <= uchar b < 256.
Proof.
  unfold uchar. pose proof (Byte.to_N_bounded b) as Hb. lia.
Qed.

(** A shifted value and a value below the shift have no bit in common. *)
Lemma land_shifted_low (hi lo k : Z) :
  0 <= k -> 0 <= lo < 2 ^ k -> Z.land (hi * 2 ^ k) lo = 0.
Proof.
  intros Hk Hlo. apply Z.bits_inj'. intros n Hn.
  rewrite Z.land_spec, Z.bits_0.
  destruct (Z.lt_ge_cases n k) as [Hlt | Hge].
  - rewrite Z.mul_pow2_bits_low by assumption. reflexivity.
  - rewrite <- (Z.mod_small lo (2 ^ k)) by assumption.
    rewrite Z.mod_pow2_bits_high by lia. apply andb_false_r.
Qed.

Lemma lor_mul_add (hi lo k : Z) :
  0 <= k -> 0 <= lo < 2 ^ k -> Z.lor (hi * 2 ^ k) lo = hi * 2 ^ k + lo.
Proof.
  intros Hk Hlo.
  pose proof (land_shifted_low hi lo k Hk Hlo) as Hland.
  rewrite <- (Z.lxor_lor _ _ Hland). symmetry.
  apply Z.add_nocarry_lxor. exact Hland.
Qed.

Lemma ushort_assembly (b0 b1 : UCHAR) :
  to_USHORT (Z.lor (Z.shiftl (uchar b1) 8) (uchar b0))
  = Spec.le_value [b0; b1].
Proof.
  pose proof (uchar_range b0). pose proof (uchar_range b1).
  rewrite Z.shiftl_mul_pow2 by lia.
  rewrite lor_mul_add by lia.
  unfold to_USHORT, Spec.le_value.
  change (2 ^ 8) with 256. change (2 ^ 16) with 65536.
  rewrite Z.mod_small; lia.
Qed.

Lemma uint_assembly (b0 b1 b2 b3 : UCHAR) :
  to_UINT (Z.lor (Z.lor (Z.lor (Z.shiftl (uchar b3) 24)
                               (Z.shiftl (uchar b2) 16))
                        (Z.shiftl (uchar b1) 8))
                 (uchar b0))
  = Spec.le_value [b0; b1; b2; b3].
Proof.
  pose proof (uchar_range b0). pose proof (uchar_range b1).
  pose proof (uchar_range b2). pose proof (uchar_range b3).
  rewrite !Z.shiftl_mul_pow2 by lia.
  rewrite (lor_mul_add (uchar b3) (uchar b2 * 2 ^ 16) 24)
    by (change (2 ^ 16) with 65536; change (2 ^ 24) with 16777216; lia).
  replace (uchar b3 * 2 ^ 24 + uchar b2 * 2 ^ 16)
    with ((uchar b3 * 2 ^ 8 + uchar b2) * 2 ^ 16)
    by (change (2 ^ 16) with 65536; change (2 ^ 24) with 16777216;
        change (2 ^ 8) with 256; lia).
  rewrite (lor_mul_add _ (uchar b1 * 2 ^ 8) 16)
    by (change (2 ^ 16) with 65536; change (2 ^ 8) with 256; lia).
  replace ((uchar b3 * 2 ^ 8 + uchar b2) * 2 ^ 16 + uchar b1 * 2 ^ 8)
    with (((uchar b3 * 2 ^ 8 + uchar b2) * 2 ^ 8 + uchar b1) * 2 ^ 8)
    by (change (2 ^ 16) with 65536; change (2 ^ 8) with 256; lia).
  rewrite (lor_mul_add _ (uchar b0) 8)
    by (change (2 ^ 8) with 256; lia).
  unfold to_UINT, Spec.le_value.
  change (2 ^ 8) with 256. change (2 ^ 32) with 4294967296.
  rewrite Z.mod_small; lia.
Qed.

End LittleEndian.

(** ** The stream and the field readers *)

Section Readers.

Lemma remaining_length (f : FILE) :
  length (remaining f) = (length (buf f) - pos f)%nat.
Proof. unfold remaining. apply length_skipn. Qed.

Lemma remaining_advance (n : nat) (f : FILE) :
  remaining (advance n f) = skipn n (remaining f).
Proof.
  unfold remaining, advance. cbn [buf pos].
  rewrite skipn_skipn. f_equal. lia.
Qed.

(** An [fread] of single bytes that the stream can satisfy in full. *)
Lemma fread_bytes_full (n : nat) (f : FILE) :
  (n <= length (remaining f))%nat ->
  fread 1 n f = (firstn n (remaining f), n, advance n f).
Proof.
  intros Hn. unfold fread, advance.
  assert (Hlen : length (firstn (1 * n) (remaining f)) = n).
  { rewrite length_firstn. lia. }
  rewrite Hlen, Nat.div_1_r, Nat.mul_1_l. reflexivity.
Qed.

(** An [fread] of single bytes that runs into the end of the stream
    delivers what is left and reports fewer items than asked for. *)
Lemma fread_bytes_short (n : nat) (f : FILE) :
  (length (remaining f) < n)%nat ->
  fread 1 n f
  = (remaining f, length (remaining f), advance (length (remaining f)) f).
Proof.
  intros Hn. unfold fread, advance.
  assert (Hall : firstn (1 * n) (remaining f) = remaining f).
  { apply firstn_all2. lia. }
  rewrite Hall, Nat.div_1_r. reflexivity.
Qed.

Lemma ReadUSHORT_spec (f : FILE) :
  ReadUSHORT f
  = if (2 <=? length (remaining f))%nat
    then (Some (Spec.field (remaining f) 0 2), advance 2 f)
    else (None, advance (length (remaining f)) f).
Proof.
  unfold ReadUSHORT, fread, advance, Spec.field.
  destruct (remaining f) as [| b0 [| b1 r]];
    cbn [firstn skipn length Nat.mul Nat.add Nat.div Nat.divmod fst
         Nat.eqb Nat.leb negb nth idx];
    try reflexivity.
  unfold idx. cbn [nth]. rewrite ushort_assembly. reflexivity.
Qed.

Lemma ReadUINT_spec (f : FILE) :
  ReadUINT f
  = if (4 <=? length (remaining f))%nat
    then (Some (Spec.field (remaining f) 0 4), advance 4 f)
    else (None, advance (length (remaining f)) f).
Proof.
  unfold ReadUINT, fread, advance, Spec.field.
  destruct (remaining f) as [| b0 [| b1 [| b2 [| b3 r]]]];
    cbn [firstn skipn length Nat.mul Nat.add Nat.div Nat.divmod fst
         Nat.eqb Nat.leb negb nth idx];
    try reflexivity.
  unfold idx. cbn [nth]. rewrite uint_assembly. reflexivity.
Qed.

End Readers.

(** ** The header reader *)

Section HeaderReader.

Lemma advance_advance (n m : nat) (f : FILE) :
  advance n (advance m f) = advance (m + n) f.
Proof. unfold advance. cbn [buf pos]. f_equal. lia. Qed.

Lemma field_skipn (k n : nat) (l : list UCHAR) :
  Spec.field (skipn k l) 0 n = Spec.field l k n.
Proof. reflexivity. Qed.

(** One field read, with the cursor expressed from the start of the
    header. *)
Ltac read_field :=
  first [rewrite ReadUSHORT_spec | rewrite ReadUINT_spec];
  rewrite ?advance_advance, ?remaining_advance, ?field_skipn, ?length_skipn.

Lemma header_fields_ok (f : FILE) :
  (54 <= length (remaining f))%nat ->
  header_fields f = (Some (Spec.header_at (remaining f)), advance 54 f).
Proof.
  intros Hlen. unfold header_fields, rbind, rret.
  do 16 (read_field; rewrite (proj2 (Nat.leb_le _ _)) by (cbn; lia);
         cbv beta iota).
  reflexivity.
Qed.

Lemma header_fields_short (f : FILE) :
  (length (remaining f) < 54)%nat -> fst (header_fields f) = None.
Proof.
  intros Hlen. unfold header_fields, rbind, rret.
  do 16 (read_field;
         match goal with
         | |- context [Nat.leb ?a ?b] =>
             destruct (Nat.leb_spec a b); [cbv beta iota | reflexivity]
         end).
  cbn in *. lia.
Qed.

(** [ReadHeader] in one equation: 54 bytes after the cursor are enough and
    are needed. *)
Lemma ReadHeader_spec (f : FILE) :
  ReadHeader (Some f)
  = if (54 <=? length (remaining f))%nat
    then (BMP_OK, Some (Spec.header_at (remaining f), advance 54 f))
    else (BMP_IO_ERROR, None).
Proof.
  unfold ReadHeader.
  destruct (Nat.leb_spec 54 (length (remaining f))) as [Hle | Hlt].
  - rewrite header_fields_ok by assumption. reflexivity.
  - pose proof (header_fields_short f Hlt) as Hnone.
    destruct (header_fields f) as [[h |] f']; [discriminate | reflexivity].
Qed.

End HeaderReader.

(** ** The process callback, stage by stage *)

Section Process.

Variables (eos : bool) (palettesize0 : u32) (g : BMP_STATUS).

Lemma remaining_fmemopen (data : list UCHAR) :
  remaining (fmemopen data) = data.
Proof. reflexivity. Qed.

(** Without 54 bytes there is no header and the call gives up. *)
Lemma process_short_header (data : list UCHAR) :
  (length data < 54)%nat ->
  QDBMP_process (Some data) eos palettesize0 g
  = stop GF_CORRUPTED_DATA BMP_FILE_INVALID None.
Proof.
  intros Hlen. unfold QDBMP_process.
  rewrite ReadHeader_spec, remaining_fmemopen.
  destruct (Nat.leb_spec 54 (length data)); [lia | reflexivity].
Qed.

(** Once the header is read, [validate] decides whether the call goes on
    to the palette. *)
Lemma process_after_header (data : list UCHAR) (h : BMP_Header) (f1 : FILE) :
  ReadHeader (Some (fmemopen data)) = (BMP_OK, Some (h, f1)) ->
  QDBMP_process (Some data) eos palettesize0 g
  = match validate h with
    | Some (e, s) => stop e s (Some f1)
    | None => read_palette h (palettesize_of h palettesize0) f1 g
    end.
Proof.
  intros Hread. unfold QDBMP_process, validate. rewrite Hread.
  destruct (negb (Magic h =? 0x4D42)); [reflexivity |].
  destruct (variant_unsupported h); reflexivity.
Qed.

(** The header a successful [ReadHeader] returns, and where it leaves
    the cursor. *)
Lemma ReadHeader_ok_inv (data : list UCHAR) (h : BMP_Header) (f1 : FILE) :
  ReadHeader (Some (fmemopen data)) = (BMP_OK, Some (h, f1)) ->
  (54 <= length data)%nat /\ h = Spec.header_at data /\ f1 = mkFILE data 54.
Proof.
  rewrite ReadHeader_spec, remaining_fmemopen.
  destruct (Nat.leb_spec 54 (length data)) as [Hle | Hlt];
    intros Heq; inversion Heq; subst. auto.
Qed.

(** Every outcome of [ReadHeader] on a stream is one of two. *)
Lemma ReadHeader_cases (data : list UCHAR) :
  ReadHeader (Some (fmemopen data))
  = (BMP_OK, Some (Spec.header_at data, mkFILE data 54))
  \/ ((length data < 54)%nat
      /\ ReadHeader (Some (fmemopen data)) = (BMP_IO_ERROR, None)).
Proof.
  rewrite ReadHeader_spec, remaining_fmemopen.
  destruct (Nat.leb_spec 54 (length data)); [left | right]; auto.
Qed.

End Process.

(** ** The palette and the pixels *)

Section Stages.

Variables (h : BMP_Header) (g : BMP_STATUS).

Lemma read_palette_none (palettesize : u32) (f : FILE) :
  palettesize <= 0 ->
  read_palette h palettesize f g = decode_pixels h None f g.
Proof.
  intros Hle. unfold read_palette.
  destruct (Z.gtb_spec palettesize 0); [lia | reflexivity].
Qed.

Lemma read_palette_full (palettesize : u32) (f : FILE) :
  0 < palettesize ->
  (Z.to_nat palettesize <= length (remaining f))%nat ->
  read_palette h palettesize f g
  = decode_pixels h (Some (firstn (Z.to_nat palettesize) (remaining f)))
      (advance (Z.to_nat palettesize) f) g.
Proof.
  intros Hpos Hlen. unfold read_palette.
  destruct (Z.gtb_spec palettesize 0); [| lia].
  rewrite fread_bytes_full by assumption.
  rewrite Nat.eqb_refl. reflexivity.
Qed.

Lemma read_palette_truncated (palettesize : u32) (f : FILE) :
  0 < palettesize ->
  (length (remaining f) < Z.to_nat palettesize)%nat ->
  read_palette h palettesize f g
  = stop GF_CORRUPTED_DATA BMP_FILE_INVALID
      (Some (advance (length (remaining f)) f)).
Proof.
  intros Hpos Hlen. unfold read_palette.
  destruct (Z.gtb_spec palettesize 0); [| lia].
  rewrite fread_bytes_short by assumption.
  destruct (Nat.eqb_spec (length (remaining f)) (Z.to_nat palettesize));
    [lia | reflexivity].
Qed.

Lemma decode_pixels_alloc (pal : option (list UCHAR)) (f : FILE) :
  alloc (decode_pixels h pal f g) = Some (packet_size h).
Proof.
  unfold decode_pixels.
  destruct (BMP_GetDepth h =? 32).
  - destruct (fread 1 _ f) as [[bytes n] f']. reflexivity.
  - destruct (BMP_GetDepth h =? 24); [reflexivity |].
    destruct (BMP_GetDepth h =? 8); reflexivity.
Qed.

Lemma decode_pixels_last_error (pal : option (list UCHAR)) (f : FILE) :
  last_error (decode_pixels h pal f g) = g.
Proof.
  unfold decode_pixels.
  destruct (BMP_GetDepth h =? 32).
  - destruct (fread 1 _ f) as [[bytes n] f']. reflexivity.
  - destruct (BMP_GetDepth h =? 24); [reflexivity |].
    destruct (BMP_GetDepth h =? 8); reflexivity.
Qed.

(** Depth 32: the packet is what the stream still holds, byte for byte
    and in the stream's order, up to the packet's size; bytes the stream
    cannot supply stay unwritten. *)
Lemma decode_pixels_32 (pal : option (list UCHAR)) (f : FILE) :
  BitsPerPixel h = 32 ->
  let bytes := firstn (Z.to_nat (packet_size h)) (remaining f) in
  decode_pixels h pal f g
  = mkOutcome GF_OK g
      [GF_PROP_PID_PIXFMT GF_PIXEL_RGBX;
       GF_PROP_PID_WIDTH (to_u32 (Width h));
       GF_PROP_PID_HEIGHT (to_u32 (Height h));
       GF_PROP_PID_STRIDE (to_u32 (4 * Width h))]
      (Some (packet_size h)) pal
      (Some (store bytes (gf_filter_pck_new_alloc (packet_size h))))
      (Some (advance (length bytes) f)) true false.
Proof.
  intros Hbpp bytes. unfold decode_pixels, BMP_GetDepth. rewrite Hbpp.
  cbn [Z.eqb Pos.eqb].
  unfold fread. rewrite Nat.mul_1_l. reflexivity.
Qed.

(** A depth without a case in the switch: nothing is read and the packet
    goes out as allocated. *)
Lemma decode_pixels_no_case (pal : option (list UCHAR)) (f : FILE) :
  BitsPerPixel h <> 32 -> BitsPerPixel h <> 24 -> BitsPerPixel h <> 8 ->
  decode_pixels h pal f g
  = mkOutcome GF_OK g
      [GF_PROP_PID_WIDTH (to_u32 (Width h));
       GF_PROP_PID_HEIGHT (to_u32 (Height h));
       GF_PROP_PID_STRIDE (to_u32 (4 * Width h))]
      (Some (packet_size h)) pal
      (Some (gf_filter_pck_new_alloc (packet_size h))) (Some f) true false.
Proof.
  intros H32 H24 H8. unfold decode_pixels, BMP_GetDepth.
  destruct (Z.eqb_spec (BitsPerPixel h) 32); [contradiction |].
  destruct (Z.eqb_spec (BitsPerPixel h) 24); [contradiction |].
  destruct (Z.eqb_spec (BitsPerPixel h) 8); [contradiction |].
  reflexivity.
Qed.

End Stages.

(** ** Whole calls *)

Section WholeCalls.

Variables (eos : bool) (palettesize0 : u32) (g : BMP_STATUS).

(** A header that fails [validate] ends the call with that error. *)
Lemma process_rejected (data : list UCHAR) (h : BMP_Header) (f1 : FILE)
    (e : GF_Err) (s : BMP_STATUS) :
  ReadHeader (Some (fmemopen data)) = (BMP_OK, Some (h, f1)) ->
  validate h = Some (e, s) ->
  QDBMP_process (Some data) eos palettesize0 g = stop e s (Some f1).
Proof.
  intros Hread Hval.
  rewrite (process_after_header eos palettesize0 g data h f1 Hread), Hval.
  reflexivity.
Qed.

(** [palettesize] for the two indexed depths, and for every other depth. *)
Lemma palettesize_of_8 (h : BMP_Header) :
  BitsPerPixel h = 8 -> palettesize_of h palettesize0 = 256 * 4.
Proof. intros Hb. unfold palettesize_of. rewrite Hb. reflexivity. Qed.

Lemma palettesize_of_4 (h : BMP_Header) :
  BitsPerPixel h = 4 -> palettesize_of h palettesize0 = 16 * 4.
Proof. intros Hb. unfold palettesize_of. rewrite Hb. reflexivity. Qed.

Lemma palettesize_of_other (h : BMP_Header) :
  BitsPerPixel h <> 8 -> BitsPerPixel h <> 4 ->
  palettesize_of h palettesize0 = palettesize0.
Proof.
  intros H8 H4. unfold palettesize_of.
  destruct (Z.eqb_spec (BitsPerPixel h) 4); [contradiction |].
  destruct (Z.eqb_spec (BitsPerPixel h) 8); [contradiction | reflexivity].
Qed.

(** A valid 32-bpp file, when the local [palettesize] happens to start at
    zero: the packet is the bytes behind the header in file order. *)
Lemma process_32bpp_copies (data : list UCHAR) (h : BMP_Header) (f1 : FILE) :
  ReadHeader (Some (fmemopen data)) = (BMP_OK, Some (h, f1)) ->
  validate h = None ->
  BitsPerPixel h = 32 ->
  palettesize0 <= 0 ->
  sent (QDBMP_process (Some data) eos palettesize0 g)
  = Some (store (firstn (Z.to_nat (packet_size h)) (skipn 54 data))
                (gf_filter_pck_new_alloc (packet_size h))).
Proof.
  intros Hread Hval Hbpp Hps.
  rewrite (process_after_header eos palettesize0 g data h f1 Hread), Hval.
  rewrite palettesize_of_other by lia.
  rewrite read_palette_none by assumption.
  rewrite decode_pixels_32 by assumption.
  destruct (ReadHeader_ok_inv data h f1 Hread) as (_ & _ & ->).
  reflexivity.
Qed.

(** Whatever a call returns other than [GF_OK], it sends no packet. *)
Lemma failure_sends_nothing (pck : option (list UCHAR)) :
  ret (QDBMP_process pck eos palettesize0 g) <> GF_OK ->
  sent (QDBMP_process pck eos palettesize0 g) = None.
Proof.
  unfold QDBMP_process. destruct pck as [data |];
    [| destruct eos; reflexivity].
  destruct (ReadHeader (Some (fmemopen data))) as [[] [[h f1] |]];
    try reflexivity.
  destruct (negb (Magic h =? 19778)); [reflexivity |].
  destruct (variant_unsupported h); [reflexivity |].
  unfold read_palette.
  destruct (palettesize_of h palettesize0 >? 0).
  - destruct (fread 1 _ f1) as [[pal n] f'].
    destruct (negb (n =? _)%nat); [reflexivity |].
    unfold decode_pixels.
    destruct (BMP_GetDepth h =? 32).
    + destruct (fread 1 _ f') as [[bytes m] f'']. cbn. congruence.
    + destruct (BMP_GetDepth h =? 24); [reflexivity |].
      destruct (BMP_GetDepth h =? 8); [reflexivity |]. cbn. congruence.
  - unfold decode_pixels.
    destruct (BMP_GetDepth h =? 32).
    + destruct (fread 1 _ f1) as [[bytes m] f'']. cbn. congruence.
    + destruct (BMP_GetDepth h =? 24); [reflexivity |].
      destruct (BMP_GetDepth h =? 8); [reflexivity |]. cbn. congruence.
Qed.

End WholeCalls.

(** For depth 32 the rows need no padding: the specification's stride is
    four bytes per pixel. *)
Lemma row_stride_32 (w : Z) : Spec.row_stride w 32 = 4 * w.
Proof.
  unfold Spec.row_stride.
  replace (w * 32 + 7) with (7 + (4 * w) * 8) by lia.
  rewrite Z.div_add by lia. change (7 / 8) with 0. rewrite Z.add_0_l.
  replace (4 * w + 3) with (3 + w * 4) by lia.
  rewrite Z.div_add by lia. change (3 / 4) with 0. lia.
Qed.

Section Packets.

Lemma skipn_repeat {A : Type} (a : A) (k n : nat) :
  skipn k (repeat a n) = repeat a (n - k).
Proof.
  revert n. induction k as [| k IH]; intros [| n]; cbn; auto.
Qed.

Lemma store_alloc (bytes : list UCHAR) (size : u32) :
  (length bytes <= Z.to_nat size)%nat ->
  store bytes (gf_filter_pck_new_alloc size)
  = map Some bytes ++ repeat None (Z.to_nat size - length bytes)
  /\ length (store bytes (gf_filter_pck_new_alloc size)) = Z.to_nat size.
Proof.
  intros Hle. unfold store, gf_filter_pck_new_alloc.
  rewrite skipn_repeat. split; [reflexivity |].
  rewrite length_app, length_map, repeat_length. lia.
Qed.

Lemma packet_size_eq (h : BMP_Header) :
  packet_size h = (Width h * Height h * 4) mod 2 ^ 32.
Proof. reflexivity. Qed.

End Packets.

(** After the allocation the depth alone decides how the call ends. *)
Lemma decode_pixels_outcome (h : BMP_Header) (pal : option (list UCHAR))
    (f : FILE) (g : BMP_STATUS) :
  let o := decode_pixels h pal f g in
  alloc o = Some (packet_size h)
  /\ ret o = (if (BitsPerPixel h =? 24) || (BitsPerPixel h =? 8)
              then GF_NOT_SUPPORTED else GF_OK)
  /\ (ret o = GF_OK ->
      exists p, sent o = Some p
                /\ length p = Z.to_nat (packet_size h)
                /\ dropped o = true).
Proof.
  intros o. subst o.
  destruct (Z.eq_dec (BitsPerPixel h) 32) as [H32 | H32].
  - rewrite decode_pixels_32 by assumption. rewrite H32.
    cbn [alloc ret sent dropped Z.eqb Pos.eqb orb].
    repeat split. intros _. eexists. split; [reflexivity |].
    split; [| reflexivity].
    apply store_alloc. rewrite length_firstn. lia.
  - unfold decode_pixels, BMP_GetDepth.
    destruct (Z.eqb_spec (BitsPerPixel h) 32); [contradiction |].
    destruct (Z.eqb_spec (BitsPerPixel h) 24);
      [cbn; repeat split; intros Hx; discriminate Hx |].
    destruct (Z.eqb_spec (BitsPerPixel h) 8);
      [cbn; repeat split; intros Hx; discriminate Hx |].
    cbn [alloc ret sent dropped orb]. repeat split. intros _.
    eexists. split; [reflexivity |]. split; [| reflexivity].
    unfold gf_filter_pck_new_alloc. apply repeat_length.
Qed.


Lemma read_palette_alloc_ok (h : BMP_Header) (palettesize : u32) (f : FILE)
    (g : BMP_STATUS) :
  read_palette_alloc true h palettesize f g = read_palette h palettesize f g.
Proof. reflexivity. Qed.

(** With both allocations succeeding the call is [QDBMP_process]. *)
Lemma QDBMP_process_alloc_ok (pck : option (list UCHAR)) (eos : bool)
    (palettesize0 : u32) (g : BMP_STATUS) :
  QDBMP_process_alloc true true pck eos palettesize0 g
  = QDBMP_process pck eos palettesize0 g.
Proof. reflexivity. Qed.

(** * The claims *)

(** C1: a 32-bpp source pixel stored blue-green-red-alpha should leave the
    decoder as red-green-blue-alpha. On the 1 x 1 file [bmp_1x1_32] the call
    announces the packet as [GF_PIXEL_RGBX] and succeeds, yet the packet
    holds the four source bytes in the order of the file (blue first), which
    is not the reordered pixel. *)
Theorem C1_pixel_bytes_not_reordered :
  let o := QDBMP_process (Some bmp_1x1_32) false 0 BMP_OK in
  ret o = GF_OK
  /\ In (GF_PROP_PID_PIXFMT GF_PIXEL_RGBX) (props o)
  /\ sent o = Some (map Some bgra_pixel)
  /\ sent o <> Some (map Some (Spec.rgba_of_bgra bgra_pixel)).
Proof.
  vm_compute. repeat split; auto. intros Heq. discriminate Heq.
Qed.

(** C2: output row [y] should be read from source row [height - 1 - y]. On
    the 2 x 2 file [bmp_2x2_32] the packet has the rows in the order of the
    file: its top row is the source's first row, not its last. *)
Theorem C2_rows_not_flipped :
  let o := QDBMP_process (Some bmp_2x2_32) false 0 BMP_OK in
  ret o = GF_OK
  /\ sent o = Some (map Some rows_2x2)
  /\ Spec.flip 2 2 rows_2x2
     = bytes_of [2; 2; 2; 255; 2; 2; 2; 255; 1; 1; 1; 255; 1; 1; 1; 255]
  /\ sent o <> Some (map Some (Spec.flip 2 2 rows_2x2)).
Proof.
  vm_compute. repeat split; auto. intros Heq. discriminate Heq.
Qed.

(** C3: a call that fails should return no buffer, and pixel data shorter
    than stride * height should make it fail. On [bmp_2x2_32_truncated],
    which has 4 of the 16 pixel bytes, the call returns [GF_OK] and sends a
    16-byte packet of which only the first four bytes were written. *)
Theorem C3_truncated_pixels_accepted :
  let o := QDBMP_process (Some bmp_2x2_32_truncated) false 0 BMP_OK in
  Spec.row_stride 2 32 * 2 = 16
  /\ length (skipn 54 bmp_2x2_32_truncated) = 4%nat
  /\ ret o = GF_OK
  /\ last_error o = BMP_OK
  /\ sent o = Some (map Some (bytes_of [1; 2; 3; 4]) ++ repeat None 12).
Proof.
  vm_compute. repeat split; reflexivity.
Qed.

(** C4, the claim as stated fails: a header with width 0 and height 0
    passes the checks although the claim lets the validator succeed only
    for non-zero dimensions. *)
Lemma C4_zero_dimensions_pass :
  let h := v3_header 0 0 32 in
  ~ (validate h = None
     <-> Magic h = 0x4D42 /\ HeaderSize h = 40 /\ CompressionType h = 0
         /\ (BitsPerPixel h = 32 \/ BitsPerPixel h = 24
             \/ BitsPerPixel h = 8 \/ BitsPerPixel h = 4)
         /\ Width h <> 0 /\ Height h <> 0).
Proof.
  intros h [Hpass _].
  assert (Hval : validate h = None) by reflexivity.
  destruct (Hpass Hval) as (_ & _ & _ & _ & Hw & _).
  apply Hw. reflexivity.
Qed.

(** C4, amended: the header checks pass exactly when the magic is 0x4D42,
    the info-header size is 40, the compression type is 0 and the depth is
    one of 32, 24, 8, 4; width and height are not looked at. A wrong magic
    is reported first, as [GF_CORRUPTED_DATA] with [BMP_FILE_INVALID]; any
    violation of the other three rules is reported as [GF_NOT_SUPPORTED]
    with [BMP_FILE_NOT_SUPPORTED], with no distinction between them. The
    call returns the error of the checks and sends nothing. *)
Theorem C4_header_checks (h : BMP_Header) :
  (validate h = None
   <-> Magic h = 0x4D42 /\ HeaderSize h = 40 /\ CompressionType h = 0
       /\ (BitsPerPixel h = 32 \/ BitsPerPixel h = 24
           \/ BitsPerPixel h = 8 \/ BitsPerPixel h = 4))
  /\ (Magic h <> 0x4D42 ->
      validate h = Some (GF_CORRUPTED_DATA, BMP_FILE_INVALID))
  /\ (Magic h = 0x4D42 ->
      HeaderSize h <> 40 \/ CompressionType h <> 0
      \/ ~ (BitsPerPixel h = 32 \/ BitsPerPixel h = 24
            \/ BitsPerPixel h = 8 \/ BitsPerPixel h = 4) ->
      validate h = Some (GF_NOT_SUPPORTED, BMP_FILE_NOT_SUPPORTED))
  /\ (forall data eos palettesize0 g f1 e s,
      ReadHeader (Some (fmemopen data)) = (BMP_OK, Some (h, f1)) ->
      validate h = Some (e, s) ->
      let o := QDBMP_process (Some data) eos palettesize0 g in
      ret o = e /\ last_error o = s /\ sent o = None /\ alloc o = None).
Proof.
  split; [| split; [| split]].
  - unfold validate, variant_unsupported.
    destruct (Z.eqb_spec (Magic h) 0x4D42);
      destruct (Z.eqb_spec (BitsPerPixel h) 32);
      destruct (Z.eqb_spec (BitsPerPixel h) 24);
      destruct (Z.eqb_spec (BitsPerPixel h) 8);
      destruct (Z.eqb_spec (BitsPerPixel h) 4);
      destruct (Z.eqb_spec (CompressionType h) 0);
      destruct (Z.eqb_spec (HeaderSize h) 40);
      cbn; split; intros Hx;
      try discriminate Hx; try reflexivity;
      try (repeat split; auto; tauto); try lia; try tauto.
  - intros Hm. unfold validate.
    destruct (Z.eqb_spec (Magic h) 0x4D42); [contradiction | reflexivity].
  - intros Hm Hbad. unfold validate, variant_unsupported.
    destruct (Z.eqb_spec (Magic h) 0x4D42); [| contradiction].
    destruct (Z.eqb_spec (BitsPerPixel h) 32);
      destruct (Z.eqb_spec (BitsPerPixel h) 24);
      destruct (Z.eqb_spec (BitsPerPixel h) 8);
      destruct (Z.eqb_spec (BitsPerPixel h) 4);
      destruct (Z.eqb_spec (CompressionType h) 0);
      destruct (Z.eqb_spec (HeaderSize h) 40);
      cbn; try reflexivity; exfalso; tauto.
  - intros data eos palettesize0 g f1 e s Hread Hval o. subst o.
    rewrite (process_rejected eos palettesize0 g data h f1 e s Hread Hval).
    repeat split.
Qed.

(** C5: on every byte source the header reader either finds 54 bytes
    after the cursor, returns [BMP_OK] with each field equal to the
    little-endian value of its bytes at the offsets of the file layout and
    leaves the cursor exactly 54 bytes further, or finds fewer and returns
    [BMP_IO_ERROR]; which of the two happens depends on the number of bytes
    alone, never on the value of a field. *)
Theorem C5_ReadHeader_little_endian (f : FILE) :
  ReadHeader (Some f)
  = if (54 <=? length (remaining f))%nat
    then (BMP_OK, Some (Spec.header_at (remaining f), advance 54 f))
    else (BMP_IO_ERROR, None).
Proof.
  apply ReadHeader_spec.
Qed.

(** C6: for 32-bpp and 24-bpp inputs the palette loader should read
    nothing. The local [palettesize] is set only for depths 8 and 4, so for
    depth 32 the loader reads as many bytes as the local happens to hold:
    with 4 in it, the call on [bmp_1x1_32] takes the pixel for a palette and
    sends a packet in which nothing was written. *)
Theorem C6_palette_read_at_depth_32 :
  let o := QDBMP_process (Some bmp_1x1_32) false 4 BMP_OK in
  palettesize_of (v3_header 1 1 32) 4 = 4
  /\ palette o = Some bgra_pixel
  /\ stream o = Some (mkFILE bmp_1x1_32 58)
  /\ ret o = GF_OK
  /\ sent o = Some [None; None; None; None].
Proof.
  vm_compute. repeat split; reflexivity.
Qed.

(** C7, the claim as stated fails: the 4-bpp header of
    [bmp_4bpp_header_only] passes the header checks, but the 64 palette
    bytes are missing, so the call returns [GF_CORRUPTED_DATA] and sends
    nothing. *)
Lemma C7_palette_missing :
  let o := QDBMP_process (Some bmp_4bpp_header_only) false 0 BMP_OK in
  ReadHeader (Some (fmemopen bmp_4bpp_header_only))
  = (BMP_OK, Some (v3_header 1 1 4, mkFILE bmp_4bpp_header_only 54))
  /\ validate (v3_header 1 1 4) = None
  /\ ret o = GF_CORRUPTED_DATA
  /\ alloc o = None
  /\ sent o = None.
Proof.
  vm_compute. repeat split; reflexivity.
Qed.

(** C7, amended: for every 4-bpp input that passes the header checks and
    holds the 64 palette bytes behind the header, the call reads the palette
    and not one byte more, sends the packet of
    [width * height * 4 mod 2 ^ 32] bytes exactly as it was allocated, with
    no byte written, and returns [GF_OK]. *)
Theorem C7_depth_4_sends_unwritten_packet
    (data : list UCHAR) (eos : bool) (palettesize0 : u32) (g : BMP_STATUS)
    (h : BMP_Header) (f1 : FILE) :
  ReadHeader (Some (fmemopen data)) = (BMP_OK, Some (h, f1)) ->
  validate h = None ->
  BitsPerPixel h = 4 ->
  (64 <= length (remaining f1))%nat ->
  let o := QDBMP_process (Some data) eos palettesize0 g in
  ret o = GF_OK
  /\ palette o = Some (firstn 64 (skipn 54 data))
  /\ stream o = Some (mkFILE data (54 + 64))
  /\ alloc o = Some ((Width h * Height h * 4) mod 2 ^ 32)
  /\ sent o = Some (repeat None (Z.to_nat ((Width h * Height h * 4) mod 2 ^ 32)))
  /\ dropped o = true.
Proof.
  intros Hread Hval Hbpp Hpal o. subst o.
  rewrite (process_after_header eos palettesize0 g data h f1 Hread), Hval.
  rewrite palettesize_of_4 by assumption.
  rewrite read_palette_full by (cbn; lia).
  rewrite decode_pixels_no_case by lia.
  destruct (ReadHeader_ok_inv data h f1 Hread) as (_ & _ & ->).
  repeat split.
Qed.

(** C7, amended, at [bmp_4bpp]: a 1 x 1 image of depth 4 with its palette. *)
Lemma C7_depth_4_witness :
  let o := QDBMP_process (Some bmp_4bpp) false 0 BMP_OK in
  ret o = GF_OK
  /\ palette o = Some (firstn 64 (skipn 54 bmp_4bpp))
  /\ stream o = Some (mkFILE bmp_4bpp (54 + 64))
  /\ alloc o = Some 4
  /\ sent o = Some (repeat None 4)
  /\ dropped o = true.
Proof.
  apply (C7_depth_4_sends_unwritten_packet bmp_4bpp false 0 BMP_OK
           (v3_header 1 1 4) (mkFILE bmp_4bpp 54)).
  - vm_compute. reflexivity.
  - reflexivity.
  - reflexivity.
  - vm_compute. lia.
Defined.

(** C8: at depth 24 and width 5 the source stride should be 16 bytes. The
    call returns [GF_NOT_SUPPORTED] for every 24-bpp file before any stride
    is used; the block left behind that return rounds the width, not the
    byte count, up to a multiple of 4 and so prices a row of five pixels at
    8 pixels, 24 bytes. *)
Theorem C8_stride_at_depth_24 :
  let h := v3_header 5 1 24 in
  let o := QDBMP_process (Some bmp_5x1_24) false 0 BMP_OK in
  Spec.row_stride 5 24 = 16
  /\ case24_stride h = 8
  /\ case24_stride h * 3 = 24
  /\ ret o = GF_NOT_SUPPORTED
  /\ sent o = None.
Proof.
  vm_compute. repeat split; reflexivity.
Qed.

(** C9, the claim as stated fails: for the header of [bmp_huge] the product
    width * height * 4 is 2 ^ 32, which a [u32] cannot hold; the call does
    not fail, it allocates a packet of 0 bytes, sends it and returns
    [GF_OK]. *)
Lemma C9_size_wraps_to_zero :
  let h := v3_header 0x40000000 1 32 in
  let o := QDBMP_process (Some bmp_huge) false 0 BMP_OK in
  Width h * Height h * 4 = 2 ^ 32
  /\ alloc o = Some 0
  /\ sent o = Some []
  /\ ret o = GF_OK.
Proof.
  vm_compute. repeat split; reflexivity.
Qed.

(** C9, amended: the call makes no capacity check and turns no input down
    for its dimensions. Whenever the header passes the checks and the
    stream holds the palette bytes the call asks for, the output packet is
    allocated with width * height * 4 reduced modulo 2 ^ 32 as its size,
    whatever the dimensions are; how the call ends after that depends on
    the depth alone: [GF_NOT_SUPPORTED] at depths 24 and 8, and otherwise
    [GF_OK] with a packet of exactly that size sent and the input packet
    dropped. *)
Theorem C9_allocation_size_modulo
    (data : list UCHAR) (eos : bool) (palettesize0 : u32) (g : BMP_STATUS)
    (h : BMP_Header) (f1 : FILE) :
  ReadHeader (Some (fmemopen data)) = (BMP_OK, Some (h, f1)) ->
  validate h = None ->
  (Z.to_nat (palettesize_of h palettesize0) <= length (remaining f1))%nat ->
  let o := QDBMP_process (Some data) eos palettesize0 g in
  let size := (Width h * Height h * 4) mod 2 ^ 32 in
  alloc o = Some size
  /\ ret o = (if (BitsPerPixel h =? 24) || (BitsPerPixel h =? 8)
              then GF_NOT_SUPPORTED else GF_OK)
  /\ (ret o = GF_OK ->
      exists p, sent o = Some p /\ length p = Z.to_nat size
                /\ dropped o = true).
Proof.
  intros Hread Hval Hpal o size. subst o size.
  rewrite (process_after_header eos palettesize0 g data h f1 Hread), Hval.
  rewrite <- packet_size_eq.
  destruct (Z_le_gt_dec (palettesize_of h palettesize0) 0) as [Hle | Hgt].
  - rewrite read_palette_none by assumption. apply decode_pixels_outcome.
  - rewrite read_palette_full by (assumption || lia).
    apply decode_pixels_outcome.
Qed.

(** C9, amended, at [bmp_huge]: the size 2 ^ 32 is allocated as 0 and the
    empty packet is sent. *)
Lemma C9_allocation_size_witness :
  let o := QDBMP_process (Some bmp_huge) false 0 BMP_OK in
  let size := (0x40000000 * 1 * 4) mod 2 ^ 32 in
  alloc o = Some size
  /\ ret o = (if (32 =? 24) || (32 =? 8) then GF_NOT_SUPPORTED else GF_OK)
  /\ (ret o = GF_OK ->
      exists p, sent o = Some p /\ length p = Z.to_nat size
                /\ dropped o = true).
Proof.
  apply (C9_allocation_size_modulo bmp_huge false 0 BMP_OK
           (v3_header 0x40000000 1 32) (mkFILE bmp_huge 54)).
  - vm_compute. reflexivity.
  - reflexivity.
  - vm_compute. lia.
Defined.



(** * Further properties of the code *)

(** ** Writing and reading back *)

Section RoundTrip.

Lemma uchar_to_UCHAR (z : Z) : uchar (to_UCHAR z) = z mod 2 ^ 8.
Proof.
  unfold uchar, to_UCHAR.
  assert (Hr : 0 <= z mod 2 ^ 8 < 256) by (apply Z.mod_pos_bound; lia).
  pose proof (Byte.to_of_N_option_map (Z.to_N (z mod 2 ^ 8))) as Hmap.
  destruct (N.leb_spec (Z.to_N (z mod 2 ^ 8)) 255) as [Hle | Hgt]; [| lia].
  destruct (Byte.of_N (Z.to_N (z mod 2 ^ 8))) as [b |] eqn:Hb;
    cbn in Hmap; [| discriminate Hmap].
  injection Hmap as Hmap. rewrite Hmap. apply Z2N.id. lia.
Qed.

Lemma to_UCHAR_uchar (b : UCHAR) : to_UCHAR (uchar b) = b.
Proof.
  unfold to_UCHAR. pose proof (uchar_range b) as Hr.
  change (2 ^ 8) with 256. rewrite Z.mod_small by lia.
  unfold uchar. rewrite N2Z.id, Byte.of_to_N. reflexivity.
Qed.

Lemma uchar_inj (a b : UCHAR) : uchar a = uchar b -> a = b.
Proof.
  intros Heq. rewrite <- (to_UCHAR_uchar a), <- (to_UCHAR_uchar b).
  rewrite Heq. reflexivity.
Qed.

(** The byte that [( x & (0xff << k) ) >> k] selects. *)
Lemma masked_byte (x mask k : Z) :
  0 <= k -> Z.shiftr mask k = Z.ones 8 ->
  Z.shiftr (Z.land x mask) k = (x / 2 ^ k) mod 2 ^ 8.
Proof.
  intros Hk Hmask.
  rewrite Z.shiftr_land, Hmask, Z.land_ones by lia.
  rewrite Z.shiftr_div_pow2 by assumption. reflexivity.
Qed.

Lemma mod_mod_256 (z : Z) : (z mod 2 ^ 8) mod 2 ^ 8 = z mod 2 ^ 8.
Proof. apply Z.mod_mod. discriminate. Qed.

(** The four bytes of [WriteUINT] carry the low 32 bits of [x]. *)
Lemma le_value_uint_bytes (x : Z) :
  Spec.le_value
    [to_UCHAR (Z.shiftr (Z.land x 0x000000ff) 0);
     to_UCHAR (Z.shiftr (Z.land x 0x0000ff00) 8);
     to_UCHAR (Z.shiftr (Z.land x 0x00ff0000) 16);
     to_UCHAR (Z.shiftr (Z.land x 0xff000000) 24)]
  = x mod 2 ^ 32.
Proof.
  cbn [Spec.le_value]. rewrite !uchar_to_UCHAR.
  rewrite !masked_byte by (reflexivity || lia).
  rewrite !mod_mod_256.
  change (2 ^ 0) with 1. rewrite Z.div_1_r.
  change (2 ^ 32) with (2 ^ 8 * (2 ^ 8 * (2 ^ 8 * 2 ^ 8))).
  rewrite (Z.rem_mul_r x (2 ^ 8)) by lia.
  rewrite (Z.rem_mul_r (x / 2 ^ 8) (2 ^ 8)) by lia.
  rewrite (Z.rem_mul_r (x / 2 ^ 8 / 2 ^ 8) (2 ^ 8)) by lia.
  rewrite !Z.div_div by lia.
  change (2 ^ 8 * 2 ^ 8) with (2 ^ 16).
  change (2 ^ 16 * 2 ^ 8) with (2 ^ 24).
  change (2 ^ 8) with 256. lia.
Qed.

Lemma le_value_ushort_bytes (x : Z) :
  Spec.le_value
    [to_UCHAR (Z.shiftr (Z.land x 0x00ff) 0);
     to_UCHAR (Z.shiftr (Z.land x 0xff00) 8)]
  = x mod 2 ^ 16.
Proof.
  cbn [Spec.le_value]. rewrite !uchar_to_UCHAR.
  rewrite !masked_byte by (reflexivity || lia).
  rewrite !mod_mod_256.
  change (2 ^ 0) with 1. rewrite Z.div_1_r.
  change (2 ^ 16) with (2 ^ 8 * 2 ^ 8).
  rewrite (Z.rem_mul_r x (2 ^ 8)) by lia.
  change (2 ^ 8) with 256. lia.
Qed.

Lemma remaining_after_prefix (pre l : list UCHAR) :
  remaining (mkFILE (pre ++ l) (length pre)) = l.
Proof.
  unfold remaining. cbn [buf pos].
  rewrite skipn_app, skipn_all, Nat.sub_diag. reflexivity.
Qed.

End RoundTrip.

Section FieldRoundTrip.

Lemma low_byte_step (b t : Z) :
  0 <= b < 256 -> (b + 256 * t) mod 2 ^ 8 = b /\ (b + 256 * t) / 2 ^ 8 = t.
Proof.
  intros Hb. change (2 ^ 8) with 256.
  rewrite (Z.mul_comm 256 t).
  rewrite Z.mod_add, Z.div_add by lia.
  rewrite Z.mod_small, Z.div_small by lia. lia.
Qed.

Lemma le_value_bound (l : list UCHAR) :
  0 <= Spec.le_value l < 2 ^ (8 * Z.of_nat (length l)).
Proof.
  induction l as [| b l IH]; cbn [Spec.le_value length].
  - cbn. lia.
  - pose proof (uchar_range b) as Hb.
    rewrite Nat2Z.inj_succ.
    replace (8 * Z.succ (Z.of_nat (length l)))
      with (8 + 8 * Z.of_nat (length l)) by lia.
    rewrite Z.pow_add_r by lia. change (2 ^ 8) with 256. nia.
Qed.

Lemma le_value_firstn_bound (n : nat) (l : list UCHAR) :
  0 <= Spec.le_value (firstn n l) < 2 ^ (8 * Z.of_nat n).
Proof.
  pose proof (le_value_bound (firstn n l)) as Hb.
  pose proof (length_firstn n l) as Hlen.
  assert (Hpow : 2 ^ (8 * Z.of_nat (length (firstn n l)))
                 <= 2 ^ (8 * Z.of_nat n))
    by (apply Z.pow_le_mono_r; lia).
  lia.
Qed.

Lemma uint_bytes_of_le_value (b0 b1 b2 b3 : UCHAR) (pre : list UCHAR) :
  WriteUINT (Spec.le_value [b0; b1; b2; b3]) pre = pre ++ [b0; b1; b2; b3].
Proof.
  unfold WriteUINT. rewrite !masked_byte by (reflexivity || lia).
  change (2 ^ 0) with 1. rewrite Z.div_1_r.
  change (2 ^ 24) with (2 ^ 8 * 2 ^ 8 * 2 ^ 8).
  change (2 ^ 16) with (2 ^ 8 * 2 ^ 8).
  rewrite <- !Z.div_div by lia.
  cbn [Spec.le_value].
  pose proof (uchar_range b0) as H0. pose proof (uchar_range b1) as H1.
  pose proof (uchar_range b2) as H2. pose proof (uchar_range b3) as H3.
  destruct (low_byte_step (uchar b0)
              (uchar b1 + 256 * (uchar b2 + 256 * (uchar b3 + 256 * 0))) H0)
    as [-> ->].
  destruct (low_byte_step (uchar b1)
              (uchar b2 + 256 * (uchar b3 + 256 * 0)) H1) as [-> ->].
  destruct (low_byte_step (uchar b2) (uchar b3 + 256 * 0) H2) as [-> ->].
  destruct (low_byte_step (uchar b3) 0 H3) as [-> _].
  rewrite !to_UCHAR_uchar. reflexivity.
Qed.

Lemma ushort_bytes_of_le_value (b0 b1 : UCHAR) (pre : list UCHAR) :
  WriteUSHORT (Spec.le_value [b0; b1]) pre = pre ++ [b0; b1].
Proof.
  unfold WriteUSHORT. rewrite !masked_byte by (reflexivity || lia).
  change (2 ^ 0) with 1. rewrite Z.div_1_r.
  cbn [Spec.le_value].
  pose proof (uchar_range b0) as H0. pose proof (uchar_range b1) as H1.
  destruct (low_byte_step (uchar b0) (uchar b1 + 256 * 0) H0) as [-> ->].
  destruct (low_byte_step (uchar b1) 0 H1) as [-> _].
  rewrite !to_UCHAR_uchar. reflexivity.
Qed.

End FieldRoundTrip.

(** X1: an unsigned int written by [WriteUINT] behind any bytes is read
    back by [ReadUINT] from that position as the low 32 bits of the value,
    and the cursor ends behind its four bytes. *)
Theorem X1_WriteUINT_then_ReadUINT (x : UINT) (pre rest : list UCHAR) :
  ReadUINT (mkFILE (WriteUINT x pre ++ rest) (length pre))
  = (Some (x mod 2 ^ 32),
     mkFILE (WriteUINT x pre ++ rest) (length pre + 4)).
Proof.
  rewrite ReadUINT_spec. unfold WriteUINT.
  rewrite <- app_assoc, remaining_after_prefix.
  cbn [app length Nat.leb]. unfold Spec.field. cbn [skipn firstn].
  rewrite le_value_uint_bytes. reflexivity.
Qed.

(** X2: an unsigned short written by [WriteUSHORT] behind any bytes is
    read back by [ReadUSHORT] from that position as the low 16 bits of the
    value, and the cursor ends behind its two bytes. *)
Theorem X2_WriteUSHORT_then_ReadUSHORT (x : USHORT) (pre rest : list UCHAR) :
  ReadUSHORT (mkFILE (WriteUSHORT x pre ++ rest) (length pre))
  = (Some (x mod 2 ^ 16),
     mkFILE (WriteUSHORT x pre ++ rest) (length pre + 2)).
Proof.
  rewrite ReadUSHORT_spec. unfold WriteUSHORT.
  rewrite <- app_assoc, remaining_after_prefix.
  cbn [app length Nat.leb]. unfold Spec.field. cbn [skipn firstn].
  rewrite le_value_ushort_bytes. reflexivity.
Qed.

(** X3: whatever [ReadUINT] reads is below 2 ^ 32, moves the cursor by
    four bytes, and [WriteUINT] of the value writes the same four bytes
    again: no two different byte quadruples read as the same value. *)
Theorem X3_ReadUINT_then_WriteUINT (f f' : FILE) (v : UINT) (pre : list UCHAR) :
  ReadUINT f = (Some v, f') ->
  0 <= v < 2 ^ 32
  /\ f' = advance 4 f
  /\ WriteUINT v pre = pre ++ firstn 4 (remaining f).
Proof.
  rewrite ReadUINT_spec.
  destruct (Nat.leb_spec 4 (length (remaining f))) as [Hle | Hlt];
    intros Heq; inversion Heq; subst; clear Heq.
  split; [apply (le_value_firstn_bound 4) | split; [reflexivity |]].
  unfold Spec.field. cbn [skipn].
  destruct (remaining f) as [| b0 [| b1 [| b2 [| b3 r]]]];
    cbn [length] in Hle; try lia.
  cbn [firstn]. apply uint_bytes_of_le_value.
Qed.

Lemma X3_ReadUINT_then_WriteUINT_witness :
  0 <= 0x44332211 < 2 ^ 32
  /\ mkFILE bmp_1x1_32 58 = advance 4 (mkFILE bmp_1x1_32 54)
  /\ WriteUINT 0x44332211 [] = [] ++ firstn 4 (remaining (mkFILE bmp_1x1_32 54)).
Proof.
  apply (X3_ReadUINT_then_WriteUINT (mkFILE bmp_1x1_32 54)
           (mkFILE bmp_1x1_32 58) 0x44332211 []).
  vm_compute. reflexivity.
Defined.

(** X4: whatever [ReadUSHORT] reads is below 2 ^ 16, moves the cursor by
    two bytes, and [WriteUSHORT] of the value writes the same two bytes
    again. *)
Theorem X4_ReadUSHORT_then_WriteUSHORT (f f' : FILE) (v : USHORT)
    (pre : list UCHAR) :
  ReadUSHORT f = (Some v, f') ->
  0 <= v < 2 ^ 16
  /\ f' = advance 2 f
  /\ WriteUSHORT v pre = pre ++ firstn 2 (remaining f).
Proof.
  rewrite ReadUSHORT_spec.
  destruct (Nat.leb_spec 2 (length (remaining f))) as [Hle | Hlt];
    intros Heq; inversion Heq; subst; clear Heq.
  split; [apply (le_value_firstn_bound 2) | split; [reflexivity |]].
  unfold Spec.field. cbn [skipn].
  destruct (remaining f) as [| b0 [| b1 r]]; cbn [length] in Hle; try lia.
  cbn [firstn]. apply ushort_bytes_of_le_value.
Qed.

Lemma X4_ReadUSHORT_then_WriteUSHORT_witness :
  0 <= 0x4D42 < 2 ^ 16
  /\ mkFILE bmp_1x1_32 2 = advance 2 (mkFILE bmp_1x1_32 0)
  /\ WriteUSHORT 0x4D42 [] = [] ++ firstn 2 (remaining (mkFILE bmp_1x1_32 0)).
Proof.
  apply (X4_ReadUSHORT_then_WriteUSHORT (mkFILE bmp_1x1_32 0)
           (mkFILE bmp_1x1_32 2) 0x4D42 []).
  vm_compute. reflexivity.
Defined.

(** ** The header as a whole *)

Lemma header_at_sample_header (h : BMP_Header) (rest : list UCHAR) :
  Spec.header_at (sample_header h ++ rest) = written_header h.
Proof.
  unfold sample_header, WriteUINT, WriteUSHORT. cbn [app].
  unfold Spec.header_at, Spec.field. cbn [skipn firstn].
  rewrite !le_value_uint_bytes, !le_value_ushort_bytes.
  reflexivity.
Qed.

(** X5: sixteen fields written one after the other with [WriteUSHORT] and
    [WriteUINT], in the order and with the widths [ReadHeader] reads them,
    take 54 bytes, and [ReadHeader] returns [BMP_OK] with every field equal
    to the one written, reduced to its width, whatever follows the header. *)
Theorem X5_ReadHeader_inverts_field_writes (h : BMP_Header) (rest : list UCHAR) :
  length (sample_header h) = 54%nat
  /\ ReadHeader (Some (fmemopen (sample_header h ++ rest)))
     = (BMP_OK,
        Some (written_header h, mkFILE (sample_header h ++ rest) 54)).
Proof.
  assert (Hlen : length (sample_header h) = 54%nat) by reflexivity.
  split; [exact Hlen |].
  rewrite ReadHeader_spec, remaining_fmemopen.
  destruct (Nat.leb_spec 54 (length (sample_header h ++ rest))) as [Hle | Hlt].
  - rewrite header_at_sample_header. reflexivity.
  - rewrite length_app, Hlen in Hlt. lia.
Qed.

(** ** The probe *)

Lemma magic_bytes (b0 b1 : UCHAR) :
  Spec.le_value [b0; b1] = 0x4D42 <-> b0 = x42 /\ b1 = x4d.
Proof.
  cbn [Spec.le_value].
  pose proof (uchar_range b0) as H0. pose proof (uchar_range b1) as H1.
  split.
  - intros Hv.
    assert (Hb0 : uchar b0 = uchar x42) by (change (uchar x42) with 66; lia).
    assert (Hb1 : uchar b1 = uchar x4d) by (change (uchar x4d) with 77; lia).
    split; apply uchar_inj; assumption.
  - intros [-> ->]. reflexivity.
Qed.

Lemma probe_accepts_iff (data : list UCHAR) :
  QDBMP_probe_data data = Some ("image/bmp"%string, GF_FPROBE_SUPPORTED)
  <-> exists h f1,
        ReadHeader (Some (fmemopen data)) = (BMP_OK, Some (h, f1))
        /\ Magic h = 0x4D42.
Proof.
  unfold QDBMP_probe_data.
  rewrite ReadHeader_spec, remaining_fmemopen.
  destruct (Nat.leb_spec 54 (length data)) as [Hle | Hlt].
  - destruct data as [| b0 [| b1 rest]]; cbn [length] in Hle; try lia.
    cbn [nth andb].
    assert (Hmagic : Magic (Spec.header_at (b0 :: b1 :: rest))
                     = Spec.le_value [b0; b1]) by reflexivity.
    split.
    + intros Hprobe.
      destruct (Byte.eqb b0 x42) eqn:E0; [| discriminate Hprobe].
      destruct (Byte.eqb b1 x4d) eqn:E1; [| discriminate Hprobe].
      apply Byte.byte_dec_bl in E0. apply Byte.byte_dec_bl in E1.
      eexists. eexists. split; [reflexivity |].
      rewrite Hmagic. apply magic_bytes. auto.
    + intros (h & f1 & Hread & Hm).
      injection Hread as <- _. rewrite Hmagic in Hm.
      apply magic_bytes in Hm. destruct Hm as [-> ->]. reflexivity.
  - cbn [andb]. split; [discriminate |].
    intros (h & f1 & Hread & _). discriminate Hread.
Qed.

(** X7: the probe takes a packet for a BMP exactly when [QDBMP_process]
    would get past its first test on it, that is when [ReadHeader] succeeds
    on the packet and the magic it reads is 0x4D42; nothing else of the
    header plays a part in the probe. *)
Theorem X7_probe_is_first_check (data : list UCHAR) :
  QDBMP_probe_data data = Some ("image/bmp"%string, GF_FPROBE_SUPPORTED)
  <-> exists h f1,
        ReadHeader (Some (fmemopen data)) = (BMP_OK, Some (h, f1))
        /\ Magic h = 0x4D42.
Proof.
  apply probe_accepts_iff.
Qed.

(** ** More on whole calls *)

(** X8: a packet of fewer than 54 bytes, the empty one included, is turned
    down with [GF_CORRUPTED_DATA]: [BMP_LAST_ERROR_CODE] becomes
    [BMP_FILE_INVALID], nothing is allocated or sent, and the input packet
    is not dropped. *)
Theorem X8_short_packet_is_corrupted
    (data : list UCHAR) (eos : bool) (palettesize0 : u32) (g : BMP_STATUS) :
  (length data < 54)%nat ->
  let o := QDBMP_process (Some data) eos palettesize0 g in
  ret o = GF_CORRUPTED_DATA /\ last_error o = BMP_FILE_INVALID
  /\ alloc o = None /\ sent o = None /\ dropped o = false.
Proof.
  intros Hlen o. subst o. rewrite process_short_header by assumption.
  repeat split.
Qed.

Lemma X8_short_packet_witness :
  let o := QDBMP_process (Some []) false 0 BMP_OK in
  ret o = GF_CORRUPTED_DATA /\ last_error o = BMP_FILE_INVALID
  /\ alloc o = None /\ sent o = None /\ dropped o = false.
Proof.
  apply (X8_short_packet_is_corrupted [] false 0 BMP_OK). cbn. lia.
Defined.

Section Paths.

Variables (h : BMP_Header) (g : BMP_STATUS).

(** With the palette bytes at hand, or none asked for, the call goes on to
    the pixels. *)
Lemma read_palette_available (palettesize : u32) (f : FILE) :
  (Z.to_nat palettesize <= length (remaining f))%nat ->
  read_palette h palettesize f g
  = decode_pixels h
      (if palettesize >? 0
       then Some (firstn (Z.to_nat palettesize) (remaining f)) else None)
      (advance (Z.to_nat palettesize) f) g.
Proof.
  intros Hlen. destruct (Z.gtb_spec palettesize 0) as [Hgt | Hle].
  - apply read_palette_full; assumption.
  - rewrite read_palette_none by assumption.
    replace (Z.to_nat palettesize) with 0%nat by lia.
    unfold advance. rewrite Nat.add_0_r. destruct f. reflexivity.
Qed.

Lemma decode_pixels_24_8 (pal : option (list UCHAR)) (f : FILE) :
  BitsPerPixel h = 24 \/ BitsPerPixel h = 8 ->
  decode_pixels h pal f g
  = mkOutcome GF_NOT_SUPPORTED g [] (Some (packet_size h)) pal None
      (Some f) false false.
Proof.
  intros [Hb | Hb]; unfold decode_pixels, BMP_GetDepth; rewrite Hb;
    reflexivity.
Qed.

(** The three ways out of the switch. *)
Lemma decode_pixels_cases (pal : option (list UCHAR)) (f : FILE) :
  let o := decode_pixels h pal f g in
  (BitsPerPixel h = 32
   /\ o = mkOutcome GF_OK g
            [GF_PROP_PID_PIXFMT GF_PIXEL_RGBX;
             GF_PROP_PID_WIDTH (to_u32 (Width h));
             GF_PROP_PID_HEIGHT (to_u32 (Height h));
             GF_PROP_PID_STRIDE (to_u32 (4 * Width h))]
            (Some (packet_size h)) pal
            (Some (store (firstn (Z.to_nat (packet_size h)) (remaining f))
                         (gf_filter_pck_new_alloc (packet_size h))))
            (Some (advance
                     (length (firstn (Z.to_nat (packet_size h)) (remaining f)))
                     f))
            true false)
  \/ ((BitsPerPixel h = 24 \/ BitsPerPixel h = 8)
      /\ o = mkOutcome GF_NOT_SUPPORTED g [] (Some (packet_size h)) pal None
               (Some f) false false)
  \/ (BitsPerPixel h <> 32 /\ BitsPerPixel h <> 24 /\ BitsPerPixel h <> 8
      /\ o = mkOutcome GF_OK g
               [GF_PROP_PID_WIDTH (to_u32 (Width h));
                GF_PROP_PID_HEIGHT (to_u32 (Height h));
                GF_PROP_PID_STRIDE (to_u32 (4 * Width h))]
               (Some (packet_size h)) pal
               (Some (gf_filter_pck_new_alloc (packet_size h)))
               (Some f) true false).
Proof.
  intros o. subst o.
  destruct (Z.eq_dec (BitsPerPixel h) 32) as [H32 | H32].
  - left. split; [assumption |]. apply decode_pixels_32. assumption.
  - destruct (Z.eq_dec (BitsPerPixel h) 24) as [H24 | H24].
    + right. left. split; [auto |]. apply decode_pixels_24_8. auto.
    + destruct (Z.eq_dec (BitsPerPixel h) 8) as [H8 | H8].
      * right. left. split; [auto |]. apply decode_pixels_24_8. auto.
      * right. right. repeat split; try assumption.
        apply decode_pixels_no_case; assumption.
Qed.

End Paths.

(** Every call on a packet ends in one of four ways. *)
Lemma process_cases (data : list UCHAR) (eos : bool) (palettesize0 : u32)
    (g : BMP_STATUS) :
  let o := QDBMP_process (Some data) eos palettesize0 g in
  let h := Spec.header_at data in
  let f1 := mkFILE data 54 in
  let ps := palettesize_of h palettesize0 in
  ((length data < 54)%nat
   /\ o = stop GF_CORRUPTED_DATA BMP_FILE_INVALID None)
  \/ ((54 <= length data)%nat
      /\ exists e s, validate h = Some (e, s) /\ o = stop e s (Some f1))
  \/ ((54 <= length data)%nat /\ validate h = None /\ 0 < ps
      /\ (length (remaining f1) < Z.to_nat ps)%nat
      /\ o = stop GF_CORRUPTED_DATA BMP_FILE_INVALID
               (Some (advance (length (remaining f1)) f1)))
  \/ ((54 <= length data)%nat /\ validate h = None
      /\ (Z.to_nat ps <= length (remaining f1))%nat
      /\ o = decode_pixels h
               (if ps >? 0
                then Some (firstn (Z.to_nat ps) (remaining f1)) else None)
               (advance (Z.to_nat ps) f1) g).
Proof.
  intros o h f1 ps. subst o.
  destruct (ReadHeader_cases data) as [Hread | [Hlt Hread]].
  - right.
    destruct (ReadHeader_ok_inv data _ _ Hread) as (Hlen & _ & _).
    rewrite (process_after_header eos palettesize0 g data _ _ Hread).
    fold h. fold f1. fold ps.
    destruct (validate h) as [[e s] |] eqn:Hval.
    + left. split; [assumption |]. exists e, s. auto.
    + right.
      destruct (le_lt_dec (Z.to_nat ps) (length (remaining f1))) as [Hle | Hgt].
      * right. repeat split; try assumption.
        apply read_palette_available. assumption.
      * left. assert (Hpos : 0 < ps) by lia.
        repeat split; try assumption.
        apply read_palette_truncated; assumption.
  - left. split; [assumption |]. apply process_short_header. assumption.
Qed.

Lemma header_at_dimensions (data : list UCHAR) :
  to_u32 (Width (Spec.header_at data)) = Width (Spec.header_at data)
  /\ to_u32 (Height (Spec.header_at data)) = Height (Spec.header_at data).
Proof.
  unfold to_u32, Spec.header_at, Spec.field. cbn [Width Height].
  split; apply Z.mod_small; apply (le_value_firstn_bound 4).
Qed.

(** X9: a call that returns anything but [GF_OK] sends no packet, sets no
    property on the output pid and does not drop the input packet, which
    therefore is still the first packet of the input pid at the next call. *)
Theorem X9_error_keeps_input_packet
    (pck : option (list UCHAR)) (eos : bool) (palettesize0 : u32)
    (g : BMP_STATUS) :
  ret (QDBMP_process pck eos palettesize0 g) <> GF_OK ->
  let o := QDBMP_process pck eos palettesize0 g in
  sent o = None /\ dropped o = false /\ props o = [].
Proof.
  intros Herr o. subst o.
  destruct pck as [data |];
    [| unfold QDBMP_process; destruct eos; repeat split].
  pose proof (process_cases data eos palettesize0 g) as Hc. cbv zeta in Hc.
  destruct Hc as [(_ & Ho) | [(_ & e & s & _ & Ho)
                   | [(_ & _ & _ & _ & Ho) | (_ & _ & _ & Ho)]]];
    try solve [rewrite Ho; repeat split].
  rewrite Ho in Herr |- *.
  match goal with
  | |- context [decode_pixels ?h ?pal ?f ?g] =>
      pose proof (decode_pixels_cases h g pal f) as Hd; cbv zeta in Hd;
      destruct Hd as [(_ & Hd) | [(_ & Hd) | (_ & _ & _ & Hd)]];
      rewrite Hd in Herr |- *
  end; cbn in Herr |- *; try congruence; repeat split.
Qed.

Lemma X9_error_keeps_input_packet_witness :
  let o := QDBMP_process (Some bmp_5x1_24) false 0 BMP_OK in
  sent o = None /\ dropped o = false /\ props o = [].
Proof.
  apply (X9_error_keeps_input_packet (Some bmp_5x1_24) false 0 BMP_OK).
  vm_compute. intros Heq. discriminate Heq.
Defined.

(** X10: whenever a packet is sent, the call was given a packet whose
    header was read and passed the checks, it returns [GF_OK] and drops the
    input packet; the packet sent has exactly width * height * 4 modulo
    2 ^ 32 bytes, and the output pid is given the header's width and height
    and the stride 4 * width modulo 2 ^ 32, preceded by the pixel format
    [GF_PIXEL_RGBX] at depth 32 and by nothing at any other depth. *)
Theorem X10_sent_packet_shape
    (pck : option (list UCHAR)) (eos : bool) (palettesize0 : u32)
    (g : BMP_STATUS) (p : list cell) :
  sent (QDBMP_process pck eos palettesize0 g) = Some p ->
  let o := QDBMP_process pck eos palettesize0 g in
  exists data h f1,
    pck = Some data
    /\ ReadHeader (Some (fmemopen data)) = (BMP_OK, Some (h, f1))
    /\ validate h = None
    /\ ret o = GF_OK /\ dropped o = true
    /\ length p = Z.to_nat ((Width h * Height h * 4) mod 2 ^ 32)
    /\ props o
       = (if BitsPerPixel h =? 32
          then [GF_PROP_PID_PIXFMT GF_PIXEL_RGBX] else [])
         ++ [GF_PROP_PID_WIDTH (Width h); GF_PROP_PID_HEIGHT (Height h);
             GF_PROP_PID_STRIDE ((4 * Width h) mod 2 ^ 32)].
Proof.
  intros Hsent o. subst o.
  destruct pck as [data |];
    [| unfold QDBMP_process in Hsent; destruct eos; discriminate Hsent].
  pose proof (process_cases data eos palettesize0 g) as Hc. cbv zeta in Hc.
  destruct Hc as [(_ & Ho) | [(_ & e & s & _ & Ho)
                   | [(_ & _ & _ & _ & Ho) | (Hlen & Hval & _ & Ho)]]];
    try (rewrite Ho in Hsent; discriminate Hsent).
  exists data, (Spec.header_at data), (mkFILE data 54).
  assert (Hread : ReadHeader (Some (fmemopen data))
                  = (BMP_OK, Some (Spec.header_at data, mkFILE data 54))).
  { rewrite ReadHeader_spec, remaining_fmemopen.
    destruct (Nat.leb_spec 54 (length data)); [reflexivity | lia]. }
  destruct (header_at_dimensions data) as [Hw Hh].
  rewrite Ho in Hsent |- *.
  match goal with
  | |- context [decode_pixels ?h ?pal ?f ?g] =>
      pose proof (decode_pixels_cases h g pal f) as Hd; cbv zeta in Hd;
      destruct Hd as [(Hb & Hd) | [(_ & Hd) | (Hb & _ & _ & Hd)]];
      rewrite Hd in Hsent |- *; cbn [sent ret dropped props] in Hsent |- *
  end.
  - injection Hsent as <-. rewrite Hb, Hw, Hh.
    rewrite <- packet_size_eq.
    repeat split; try assumption.
    apply store_alloc. rewrite length_firstn. lia.
  - discriminate Hsent.
  - injection Hsent as <-. rewrite Hw, Hh.
    destruct (Z.eqb_spec (BitsPerPixel (Spec.header_at data)) 32);
      [contradiction |].
    rewrite <- packet_size_eq.
    repeat split; try assumption.
    unfold gf_filter_pck_new_alloc. apply repeat_length.
Qed.

Lemma X10_sent_packet_shape_witness :
  let o := QDBMP_process (Some bmp_2x2_32) false 0 BMP_OK in
  exists data h f1,
    Some bmp_2x2_32 = Some data
    /\ ReadHeader (Some (fmemopen data)) = (BMP_OK, Some (h, f1))
    /\ validate h = None
    /\ ret o = GF_OK /\ dropped o = true
    /\ length (map Some rows_2x2)
       = Z.to_nat ((Width h * Height h * 4) mod 2 ^ 32)
    /\ props o
       = (if BitsPerPixel h =? 32
          then [GF_PROP_PID_PIXFMT GF_PIXEL_RGBX] else [])
         ++ [GF_PROP_PID_WIDTH (Width h); GF_PROP_PID_HEIGHT (Height h);
             GF_PROP_PID_STRIDE ((4 * Width h) mod 2 ^ 32)].
Proof.
  apply (X10_sent_packet_shape (Some bmp_2x2_32) false 0 BMP_OK
           (map Some rows_2x2)).
  vm_compute. reflexivity.
Defined.

(** X11: at depth 32, with a header that passes the checks, the packet sent
    is a plain copy: its bytes are the bytes of the file that follow the
    header (and the [palettesize] bytes read before them, none when that
    local starts at zero), in the order of the file, as many as the packet
    has room for; where the file ends early the rest of the packet is left
    unwritten, and the call returns [GF_OK] all the same. Bytes of the file
    beyond the packet's size are not looked at. *)
Theorem X11_depth_32_is_a_copy
    (data : list UCHAR) (eos : bool) (palettesize0 : u32) (g : BMP_STATUS)
    (h : BMP_Header) (f1 : FILE) :
  ReadHeader (Some (fmemopen data)) = (BMP_OK, Some (h, f1)) ->
  validate h = None ->
  BitsPerPixel h = 32 ->
  (Z.to_nat palettesize0 <= length (remaining f1))%nat ->
  let o := QDBMP_process (Some data) eos palettesize0 g in
  let n := Z.to_nat ((Width h * Height h * 4) mod 2 ^ 32) in
  let bytes := firstn n (skipn (54 + Z.to_nat palettesize0) data) in
  ret o = GF_OK
  /\ last_error o = g
  /\ sent o = Some (map Some bytes ++ repeat None (n - length bytes))
  /\ stream o = Some (mkFILE data (54 + Z.to_nat palettesize0 + length bytes)).
Proof.
  intros Hread Hval Hbpp Hpal o n bytes. subst o.
  rewrite (process_after_header eos palettesize0 g data h f1 Hread), Hval.
  rewrite palettesize_of_other by lia.
  rewrite read_palette_available by assumption.
  rewrite decode_pixels_32 by assumption.
  destruct (ReadHeader_ok_inv data h f1 Hread) as (_ & _ & ->).
  rewrite remaining_advance. unfold remaining, advance. cbn [buf pos].
  rewrite skipn_skipn, packet_size_eq.
  replace (Z.to_nat palettesize0 + 54)%nat
    with (54 + Z.to_nat palettesize0)%nat by lia.
  fold n. fold bytes. cbn [ret last_error sent stream].
  repeat split. f_equal. apply store_alloc.
  unfold bytes. rewrite length_firstn. lia.
Qed.

Lemma X11_depth_32_witness :
  let o := QDBMP_process (Some bmp_2x2_32_truncated) false 0 BMP_OK in
  let n := Z.to_nat ((2 * 2 * 4) mod 2 ^ 32) in
  let bytes := firstn n (skipn (54 + Z.to_nat 0) bmp_2x2_32_truncated) in
  ret o = GF_OK
  /\ last_error o = BMP_OK
  /\ sent o = Some (map Some bytes ++ repeat None (n - length bytes))
  /\ stream o
     = Some (mkFILE bmp_2x2_32_truncated (54 + Z.to_nat 0 + length bytes)).
Proof.
  apply (X11_depth_32_is_a_copy bmp_2x2_32_truncated false 0 BMP_OK
           (v3_header 2 2 32) (mkFILE bmp_2x2_32_truncated 54)).
  - vm_compute. reflexivity.
  - reflexivity.
  - reflexivity.
  - vm_compute. lia.
Defined.

(** X12: at depths 24 and 8, with a header that passes the checks and the
    palette bytes the call asks for at hand, the call allocates the output
    packet and then returns [GF_NOT_SUPPORTED]: the packet is not sent, the
    input packet is not dropped, no property is set, and, unlike on the
    other error paths, [BMP_LAST_ERROR_CODE] keeps its value. *)
Theorem X12_depths_24_and_8_unsupported
    (data : list UCHAR) (eos : bool) (palettesize0 : u32) (g : BMP_STATUS)
    (h : BMP_Header) (f1 : FILE) :
  ReadHeader (Some (fmemopen data)) = (BMP_OK, Some (h, f1)) ->
  validate h = None ->
  BitsPerPixel h = 24 \/ BitsPerPixel h = 8 ->
  (Z.to_nat (palettesize_of h palettesize0) <= length (remaining f1))%nat ->
  let o := QDBMP_process (Some data) eos palettesize0 g in
  ret o = GF_NOT_SUPPORTED
  /\ last_error o = g
  /\ alloc o = Some ((Width h * Height h * 4) mod 2 ^ 32)
  /\ sent o = None /\ dropped o = false /\ props o = [].
Proof.
  intros Hread Hval Hbpp Hpal o. subst o.
  rewrite (process_after_header eos palettesize0 g data h f1 Hread), Hval.
  rewrite read_palette_available by assumption.
  rewrite decode_pixels_24_8 by assumption.
  repeat split.
Qed.

Lemma X12_depths_24_and_8_witness :
  let o := QDBMP_process (Some bmp_5x1_24) false 0 BMP_FILE_INVALID in
  ret o = GF_NOT_SUPPORTED
  /\ last_error o = BMP_FILE_INVALID
  /\ alloc o = Some ((5 * 1 * 4) mod 2 ^ 32)
  /\ sent o = None /\ dropped o = false /\ props o = [].
Proof.
  apply (X12_depths_24_and_8_unsupported bmp_5x1_24 false 0 BMP_FILE_INVALID
           (v3_header 5 1 24) (mkFILE bmp_5x1_24 54)).
  - vm_compute. reflexivity.
  - reflexivity.
  - left. reflexivity.
  - vm_compute. lia.
Defined.

(** X13: at the indexed depths the palette read is exactly 1024 bytes
    (depth 8) or 64 bytes (depth 4), whatever the header's colors-used
    field says. When that many bytes follow the header they become the
    palette, the cursor stands right behind them, the packet is allocated
    and the call ends as its depth has it ([GF_NOT_SUPPORTED] at depth 8,
    [GF_OK] at depth 4); when fewer follow, the call fails with
    [GF_CORRUPTED_DATA] and [BMP_FILE_INVALID] before anything is
    allocated, having consumed the stream to its end. *)
Theorem X13_palette_size_fixed_by_depth
    (data : list UCHAR) (eos : bool) (palettesize0 : u32) (g : BMP_STATUS)
    (h : BMP_Header) (f1 : FILE) :
  ReadHeader (Some (fmemopen data)) = (BMP_OK, Some (h, f1)) ->
  validate h = None ->
  BitsPerPixel h = 8 \/ BitsPerPixel h = 4 ->
  let o := QDBMP_process (Some data) eos palettesize0 g in
  let n := if BitsPerPixel h =? 8 then 1024%nat else 64%nat in
  ((54 + n <= length data)%nat ->
   palette o = Some (firstn n (skipn 54 data))
   /\ stream o = Some (mkFILE data (54 + n))
   /\ alloc o = Some ((Width h * Height h * 4) mod 2 ^ 32)
   /\ ret o = if BitsPerPixel h =? 8 then GF_NOT_SUPPORTED else GF_OK)
  /\ ((length data < 54 + n)%nat ->
      ret o = GF_CORRUPTED_DATA
      /\ last_error o = BMP_FILE_INVALID
      /\ palette o = None /\ alloc o = None /\ sent o = None
      /\ dropped o = false
      /\ stream o = Some (mkFILE data (length data))).
Proof.
  intros Hread Hval Hbpp o n. subst o n.
  rewrite (process_after_header eos palettesize0 g data h f1 Hread), Hval.
  destruct (ReadHeader_ok_inv data h f1 Hread) as (Hlen & _ & ->).
  assert (Hrem : length (remaining (mkFILE data 54)) = (length data - 54)%nat)
    by apply remaining_length.
  destruct Hbpp as [Hb | Hb].
  - rewrite palettesize_of_8 by assumption. rewrite Hb.
    cbn [Z.eqb Pos.eqb]. change (Z.to_nat (256 * 4)) with 1024%nat. split.
    + intros Hfull.
      rewrite read_palette_full
        by (try rewrite Hrem; try change (Z.to_nat (256 * 4)) with 1024%nat;
            lia).
      rewrite decode_pixels_24_8 by auto.
      change (Z.to_nat (256 * 4)) with 1024%nat.
      repeat split.
    + intros Hshort.
      rewrite read_palette_truncated
        by (try rewrite Hrem; try change (Z.to_nat (256 * 4)) with 1024%nat;
            lia).
      unfold advance. rewrite Hrem.
      cbn [buf pos stop ret last_error palette alloc sent dropped stream].
      replace (54 + (length data - 54))%nat with (length data) by lia.
      repeat split.
  - rewrite palettesize_of_4 by assumption. rewrite Hb.
    cbn [Z.eqb Pos.eqb]. split.
    + intros Hfull.
      rewrite read_palette_full
        by (try rewrite Hrem; try change (Z.to_nat (16 * 4)) with 64%nat;
            lia).
      rewrite decode_pixels_no_case by lia.
      change (Z.to_nat (16 * 4)) with 64%nat.
      repeat split.
    + intros Hshort.
      rewrite read_palette_truncated
        by (try rewrite Hrem; try change (Z.to_nat (16 * 4)) with 64%nat;
            lia).
      unfold advance. rewrite Hrem.
      cbn [buf pos stop ret last_error palette alloc sent dropped stream].
      replace (54 + (length data - 54))%nat with (length data) by lia.
      repeat split.
Qed.

Lemma X13_palette_size_witness :
  let o := QDBMP_process (Some bmp_8bpp) false 0 BMP_OK in
  let n := if 8 =? 8 then 1024%nat else 64%nat in
  ((54 + n <= length bmp_8bpp)%nat ->
   palette o = Some (firstn n (skipn 54 bmp_8bpp))
   /\ stream o = Some (mkFILE bmp_8bpp (54 + n))
   /\ alloc o = Some ((1 * 1 * 4) mod 2 ^ 32)
   /\ ret o = if 8 =? 8 then GF_NOT_SUPPORTED else GF_OK)
  /\ ((length bmp_8bpp < 54 + n)%nat ->
      ret o = GF_CORRUPTED_DATA
      /\ last_error o = BMP_FILE_INVALID
      /\ palette o = None /\ alloc o = None /\ sent o = None
      /\ dropped o = false
      /\ stream o = Some (mkFILE bmp_8bpp (length bmp_8bpp))).
Proof.
  apply (X13_palette_size_fixed_by_depth bmp_8bpp false 0 BMP_OK
           (v3_header 1 1 8) (mkFILE bmp_8bpp 54)).
  - vm_compute. reflexivity.
  - reflexivity.
  - left. reflexivity.
Defined.

Section IgnoredFields.

Variables (h h' : BMP_Header) (g : BMP_STATUS).
Hypothesis (Hw : Width h = Width h') (Hh : Height h = Height h')
           (Hb : BitsPerPixel h = BitsPerPixel h').

Lemma decode_pixels_delivered (pal : option (list UCHAR)) (f f' : FILE) :
  remaining f = remaining f' ->
  delivered (decode_pixels h pal f g) = delivered (decode_pixels h' pal f' g).
Proof.
  intros Hrem.
  unfold decode_pixels, packet_size, BMP_GetWidth, BMP_GetHeight,
    BMP_GetDepth, fread.
  rewrite Hw, Hh, Hb, Hrem.
  destruct (BitsPerPixel h' =? 32); [reflexivity |].
  destruct (BitsPerPixel h' =? 24); [reflexivity |].
  destruct (BitsPerPixel h' =? 8); reflexivity.
Qed.

Lemma read_palette_delivered (palettesize : u32) (f f' : FILE) :
  remaining f = remaining f' ->
  delivered (read_palette h palettesize f g)
  = delivered (read_palette h' palettesize f' g).
Proof.
  intros Hrem. unfold read_palette.
  destruct (palettesize >? 0); [| apply decode_pixels_delivered; assumption].
  unfold fread. rewrite Hrem.
  destruct (negb _); [reflexivity |].
  apply decode_pixels_delivered.
  fold (advance (length (firstn (1 * Z.to_nat palettesize) (remaining f'))) f).
  fold (advance (length (firstn (1 * Z.to_nat palettesize) (remaining f'))) f').
  rewrite !remaining_advance, Hrem. reflexivity.
Qed.

End IgnoredFields.

(** X14: of the header, a call reads the magic, the info-header size, the
    width, the height, the depth and the compression type, and nothing
    else: two packets whose headers agree on these six fields and whose
    bytes after the header are the same give the same return code, the same
    properties and the same packet, whatever their file size, pixel-data
    offset, planes, image size, resolution and color counts are. In
    particular the pixels are always taken from right behind the header and
    palette, not from the pixel-data offset. *)
Theorem X14_other_header_fields_ignored
    (data data' : list UCHAR) (eos : bool) (palettesize0 : u32)
    (g : BMP_STATUS) (h h' : BMP_Header) (f1 f1' : FILE) :
  ReadHeader (Some (fmemopen data)) = (BMP_OK, Some (h, f1)) ->
  ReadHeader (Some (fmemopen data')) = (BMP_OK, Some (h', f1')) ->
  Magic h = Magic h' -> HeaderSize h = HeaderSize h' ->
  Width h = Width h' -> Height h = Height h' ->
  BitsPerPixel h = BitsPerPixel h' ->
  CompressionType h = CompressionType h' ->
  skipn 54 data = skipn 54 data' ->
  delivered (QDBMP_process (Some data) eos palettesize0 g)
  = delivered (QDBMP_process (Some data') eos palettesize0 g).
Proof.
  intros Hread Hread' Hm Hs Hw Hh Hb Hc Hbody.
  rewrite (process_after_header eos palettesize0 g data h f1 Hread).
  rewrite (process_after_header eos palettesize0 g data' h' f1' Hread').
  destruct (ReadHeader_ok_inv data h f1 Hread) as (_ & _ & ->).
  destruct (ReadHeader_ok_inv data' h' f1' Hread') as (_ & _ & ->).
  assert (Hval : validate h = validate h').
  { unfold validate, variant_unsupported. rewrite Hm, Hs, Hb, Hc.
    reflexivity. }
  assert (Hps : palettesize_of h palettesize0 = palettesize_of h' palettesize0).
  { unfold palettesize_of. rewrite Hb. reflexivity. }
  rewrite Hval, Hps.
  destruct (validate h') as [[e s] |]; [reflexivity |].
  apply read_palette_delivered; assumption.
Qed.

Lemma X14_other_header_fields_witness :
  delivered (QDBMP_process (Some bmp_1x1_32) false 0 BMP_OK)
  = delivered (QDBMP_process (Some bmp_1x1_32_other_fields) false 0 BMP_OK).
Proof.
  apply (X14_other_header_fields_ignored bmp_1x1_32 bmp_1x1_32_other_fields
           false 0 BMP_OK
           (v3_header 1 1 32)
           (mkHeader 0x4D42 58 7 9 1000 40 1 1 3 32 0 4 10 20 30 40)
           (mkFILE bmp_1x1_32 54) (mkFILE bmp_1x1_32_other_fields 54));
    vm_compute; reflexivity.
Defined.

(** ** Events *)

Section Events.

Lemma process_event_pids (ctx : GF_QDBMPCtx) (e : GF_FilterEvent) :
  let '(_, ctx', _) := QDBMP_process_event ctx e in
  ipid ctx' = ipid ctx /\ opid ctx' = opid ctx.
Proof.
  unfold QDBMP_process_event.
  destruct (negb (pid_eqb (on_pid e) (opid ctx))); [auto |].
  destruct (evt_type e); [| auto | auto].
  destruct (is_playing ctx); [auto |].
  destruct (negb (initial_play_done ctx)); auto.
Qed.

Lemma process_event_step (ctx : GF_QDBMPCtx) (e : GF_FilterEvent) :
  let '(_, ctx', seeks) := QDBMP_process_event ctx e in
  ((is_playing ctx = true -> initial_play_done ctx = true) ->
   (is_playing ctx' = true -> initial_play_done ctx' = true))
  /\ (length seeks + seek_due ctx'
      <= (if is_stop e then 1 else 0) + seek_due ctx)%nat
  /\ Forall (fun s => s = mkSeek (ipid ctx) 0) seeks.
Proof.
  unfold QDBMP_process_event, seek_due, is_stop.
  destruct ctx as [ip op playing done]. cbn [ipid opid is_playing
    initial_play_done].
  destruct (negb (pid_eqb (on_pid e) op));
    [destruct (evt_type e); cbn; repeat split; auto; lia |].
  destruct (evt_type e); destruct playing; destruct done; cbn;
    repeat split; auto; try lia; try discriminate.
Qed.

Lemma process_events_run (evts : list GF_FilterEvent) :
  forall ctx : GF_QDBMPCtx,
    let '(ctx', seeks) := process_events ctx evts in
    ipid ctx' = ipid ctx /\ opid ctx' = opid ctx
    /\ ((is_playing ctx = true -> initial_play_done ctx = true) ->
        (is_playing ctx' = true -> initial_play_done ctx' = true))
    /\ (length seeks + seek_due ctx'
        <= length (filter is_stop evts) + seek_due ctx)%nat
    /\ Forall (fun s => s = mkSeek (ipid ctx) 0) seeks.
Proof.
  induction evts as [| e evts IH]; intros ctx; cbn [process_events filter].
  - cbn. repeat split; auto.
  - pose proof (process_event_pids ctx e) as Hp.
    pose proof (process_event_step ctx e) as Hs.
    destruct (QDBMP_process_event ctx e) as [[r ctx1] seeks1].
    specialize (IH ctx1).
    destruct (process_events ctx1 evts) as [ctx2 seeks2].
    destruct Hp as [Hip Hop]. destruct Hs as (Hinv & Hcount & Hall).
    destruct IH as (Hip2 & Hop2 & Hinv2 & Hcount2 & Hall2).
    repeat split.
    + congruence.
    + congruence.
    + auto.
    + rewrite length_app.
      destruct (is_stop e); cbn [length] in *; lia.
    + apply Forall_app. split; [assumption |].
      rewrite <- Hip. assumption.
Qed.

End Events.

(** X15: no run of events changes the input or the output pid of the
    context, and a context in which playing implies that the first play is
    done stays so: the filter is never playing without having recorded its
    first play. *)
Theorem X15_events_keep_the_context_consistent
    (ctx : GF_QDBMPCtx) (evts : list GF_FilterEvent) :
  (is_playing ctx = true -> initial_play_done ctx = true) ->
  let ctx' := fst (process_events ctx evts) in
  ipid ctx' = ipid ctx /\ opid ctx' = opid ctx
  /\ (is_playing ctx' = true -> initial_play_done ctx' = true).
Proof.
  intros Hinv ctx'. subst ctx'.
  pose proof (process_events_run evts ctx) as Hrun.
  destruct (process_events ctx evts) as [ctx' seeks]. cbn [fst].
  destruct Hrun as (Hip & Hop & Hkeep & _ & _). auto.
Qed.

Lemma X15_events_witness :
  let ctx := mkCtx (Some 1%nat) (Some 2%nat) false false in
  let evts := [mkEvent (Some 2%nat) GF_FEVT_PLAY;
               mkEvent (Some 2%nat) GF_FEVT_STOP] in
  let ctx' := fst (process_events ctx evts) in
  ipid ctx' = ipid ctx /\ opid ctx' = opid ctx
  /\ (is_playing ctx' = true -> initial_play_done ctx' = true).
Proof.
  apply (X15_events_keep_the_context_consistent
           (mkCtx (Some 1%nat) (Some 2%nat) false false)
           [mkEvent (Some 2%nat) GF_FEVT_PLAY;
            mkEvent (Some 2%nat) GF_FEVT_STOP]).
  cbn. intros Hp. discriminate Hp.
Defined.

(** X16: starting from a context that is not waiting to resume (it is
    playing, or has never played), a run of events sends at most one seek
    per STOP event in it, none at all when there is no STOP, and every seek
    sent is a source seek to offset 0 on the input pid. *)
Theorem X16_at_most_one_seek_per_stop
    (ctx : GF_QDBMPCtx) (evts : list GF_FilterEvent) :
  (initial_play_done ctx = true -> is_playing ctx = true) ->
  let seeks := snd (process_events ctx evts) in
  (length seeks <= length (filter is_stop evts))%nat
  /\ Forall (fun s => s = mkSeek (ipid ctx) 0) seeks.
Proof.
  intros Hfresh seeks. subst seeks.
  pose proof (process_events_run evts ctx) as Hrun.
  destruct (process_events ctx evts) as [ctx' seeks]. cbn [snd].
  destruct Hrun as (_ & _ & _ & Hcount & Hall).
  split; [| assumption].
  assert (Hdue : seek_due ctx = 0%nat).
  { unfold seek_due. destruct (initial_play_done ctx); [| reflexivity].
    rewrite Hfresh by reflexivity. reflexivity. }
  lia.
Qed.

Lemma X16_at_most_one_seek_witness :
  let ctx := mkCtx (Some 1%nat) (Some 2%nat) false false in
  let evts := [mkEvent (Some 2%nat) GF_FEVT_PLAY;
               mkEvent (Some 2%nat) GF_FEVT_STOP;
               mkEvent (Some 2%nat) GF_FEVT_PLAY] in
  let seeks := snd (process_events ctx evts) in
  (length seeks <= length (filter is_stop evts))%nat
  /\ Forall (fun s => s = mkSeek (ipid ctx) 0) seeks.
Proof.
  apply (X16_at_most_one_seek_per_stop
           (mkCtx (Some 1%nat) (Some 2%nat) false false)
           [mkEvent (Some 2%nat) GF_FEVT_PLAY;
            mkEvent (Some 2%nat) GF_FEVT_STOP;
            mkEvent (Some 2%nat) GF_FEVT_PLAY]).
  cbn. intros Hp. discriminate Hp.
Defined.

Lemma pid_eqb_refl (p : option GF_FilterPid) : pid_eqb p p = true.
Proof. destruct p as [n |]; [apply Nat.eqb_refl | reflexivity]. Qed.

(** X17: on a context that has never played, PLAY, STOP, PLAY on the
    output pid go as follows: the first PLAY is cancelled and sends
    nothing, the STOP is the one event that is not cancelled, and the second
    PLAY is cancelled and sends exactly one source seek to offset 0 up the
    input pid; the filter is playing at the end. A PLAY while playing
    changes nothing and sends nothing. *)
Theorem X17_play_stop_play
    (ctx : GF_QDBMPCtx) :
  is_playing ctx = false -> initial_play_done ctx = false ->
  let ev := mkEvent (opid ctx) in
  let playing := mkCtx (ipid ctx) (opid ctx) true true in
  let stopped := mkCtx (ipid ctx) (opid ctx) false true in
  QDBMP_process_event ctx (ev GF_FEVT_PLAY) = (true, playing, [])
  /\ QDBMP_process_event playing (ev GF_FEVT_PLAY) = (true, playing, [])
  /\ QDBMP_process_event playing (ev GF_FEVT_STOP) = (false, stopped, [])
  /\ QDBMP_process_event stopped (ev GF_FEVT_PLAY)
     = (true, playing, [mkSeek (ipid ctx) 0])
  /\ process_events ctx [ev GF_FEVT_PLAY; ev GF_FEVT_STOP; ev GF_FEVT_PLAY]
     = (playing, [mkSeek (ipid ctx) 0]).
Proof.
  intros Hplay Hdone ev playing stopped.
  destruct ctx as [ip op p d]. cbn [is_playing initial_play_done] in *.
  subst p d. subst ev playing stopped.
  unfold process_events, QDBMP_process_event.
  repeat (progress (cbn [ipid opid on_pid evt_type is_playing
                         initial_play_done negb app];
                    rewrite ?pid_eqb_refl)).
  repeat split.
Qed.

Lemma X17_play_stop_play_witness :
  let ctx := mkCtx (Some 1%nat) (Some 2%nat) false false in
  let ev := mkEvent (opid ctx) in
  let playing := mkCtx (ipid ctx) (opid ctx) true true in
  let stopped := mkCtx (ipid ctx) (opid ctx) false true in
  QDBMP_process_event ctx (ev GF_FEVT_PLAY) = (true, playing, [])
  /\ QDBMP_process_event playing (ev GF_FEVT_PLAY) = (true, playing, [])
  /\ QDBMP_process_event playing (ev GF_FEVT_STOP) = (false, stopped, [])
  /\ QDBMP_process_event stopped (ev GF_FEVT_PLAY)
     = (true, playing, [mkSeek (ipid ctx) 0])
  /\ process_events ctx [ev GF_FEVT_PLAY; ev GF_FEVT_STOP; ev GF_FEVT_PLAY]
     = (playing, [mkSeek (ipid ctx) 0]).
Proof.
  apply (X17_play_stop_play (mkCtx (Some 1%nat) (Some 2%nat) false false));
    reflexivity.
Defined.

(** ** Pid configuration *)

(** X18: configuring an input pid that passes the capability check and
    then removing it returns [GF_OK] both times; in between the context
    holds that input pid and an output pid, afterwards it holds neither,
    the removal removes exactly the output pid that was in use, and the
    play flags are as they were before. *)
Theorem X18_configure_then_remove
    (ctx : GF_QDBMPCtx) (pid pid' fresh fresh' : GF_FilterPid) (caps' : bool) :
  let r1 := QDBMP_configure_pid ctx pid false true fresh in
  let c1 := snd (fst r1) in
  let r2 := QDBMP_configure_pid c1 pid' true caps' fresh' in
  let c2 := snd (fst r2) in
  fst (fst r1) = GF_OK /\ ipid c1 = Some pid
  /\ fst (fst r2) = GF_OK /\ ipid c2 = None /\ opid c2 = None
  /\ (exists o, opid c1 = Some o /\ snd r2 = [gf_filter_pid_remove o])
  /\ is_playing c2 = is_playing ctx
  /\ initial_play_done c2 = initial_play_done ctx.
Proof.
  destruct ctx as [ip [o |] p d]; cbn; repeat split; eauto.
Qed.

(** X19: configuring again, with the same or another input pid, keeps the
    output pid: the second call creates no pid, takes the new input pid,
    and sets the output pid's pixel format back to [GF_PIXEL_RGB]; and a
    pid that fails the capability check is refused with
    [GF_NOT_SUPPORTED] without any change or action. *)
Theorem X19_reconfigure_keeps_output_pid
    (ctx : GF_QDBMPCtx) (pid pid' fresh fresh' : GF_FilterPid) :
  let r1 := QDBMP_configure_pid ctx pid false true fresh in
  let c1 := snd (fst r1) in
  let r2 := QDBMP_configure_pid c1 pid' false true fresh' in
  let c2 := snd (fst r2) in
  fst (fst r2) = GF_OK
  /\ opid c2 = opid c1 /\ opid c2 <> None /\ ipid c2 = Some pid'
  /\ (forall p, ~ In (gf_filter_pid_new p) (snd r2))
  /\ In (set_pixfmt (opid c1) GF_PIXEL_RGB) (snd r2)
  /\ QDBMP_configure_pid c1 pid' false false fresh'
     = (GF_NOT_SUPPORTED, c1, []).
Proof.
  destruct ctx as [ip [o |] p d]; cbn; repeat split;
    try reflexivity; try discriminate;
    try (intros q Hin;
         repeat (destruct Hin as [Hin | Hin]; [discriminate Hin |]);
         exact Hin);
    do 4 right; left; reflexivity.
Qed.

(** ** Probe and process together *)

(** X20: a packet the probe does not take for a BMP is always turned down
    by [QDBMP_process] with [GF_CORRUPTED_DATA] and [BMP_FILE_INVALID],
    with nothing allocated or sent; a packet the probe takes is never
    turned down for its magic or for being too short for a header, though
    it may still be for its variant, its palette or its depth. *)
Theorem X20_probe_and_process_agree
    (data : list UCHAR) (eos : bool) (palettesize0 : u32) (g : BMP_STATUS) :
  let o := QDBMP_process (Some data) eos palettesize0 g in
  (QDBMP_probe_data data = None ->
   ret o = GF_CORRUPTED_DATA /\ last_error o = BMP_FILE_INVALID
   /\ alloc o = None /\ sent o = None)
  /\ (QDBMP_probe_data data <> None ->
      exists h f1,
        ReadHeader (Some (fmemopen data)) = (BMP_OK, Some (h, f1))
        /\ Magic h = 0x4D42
        /\ o = if variant_unsupported h
               then stop GF_NOT_SUPPORTED BMP_FILE_NOT_SUPPORTED (Some f1)
               else read_palette h (palettesize_of h palettesize0) f1 g).
Proof.
  intros o. subst o.
  pose proof (probe_accepts_iff data) as Hprobe.
  split.
  - intros Hnone.
    destruct (ReadHeader_cases data) as [Hread | [Hlt Hread]].
    + rewrite (process_after_header eos palettesize0 g data _ _ Hread).
      unfold validate.
      destruct (Z.eqb_spec (Magic (Spec.header_at data)) 0x4D42) as [Hm | Hm].
      * assert (Hsome : QDBMP_probe_data data
                        = Some ("image/bmp"%string, GF_FPROBE_SUPPORTED))
          by (apply Hprobe; eauto).
        congruence.
      * cbn. repeat split.
    + rewrite process_short_header by assumption. repeat split.
  - intros Hsome.
    assert (Hacc : QDBMP_probe_data data
                   = Some ("image/bmp"%string, GF_FPROBE_SUPPORTED)).
    { unfold QDBMP_probe_data in *.
      destruct ((54 <=? length data)%nat && _ && _); congruence. }
    apply Hprobe in Hacc. destruct Hacc as (h & f1 & Hread & Hm).
    exists h, f1. repeat split; try assumption.
    rewrite (process_after_header eos palettesize0 g data h f1 Hread).
    unfold validate. rewrite Hm. cbn [Z.eqb Pos.eqb negb].
    destruct (variant_unsupported h); reflexivity.
Qed.
